(** * spacecraft_localizer: frame reconciliation and the Parker spiral surface

    A shallow embedding of the numerical core of the repository:

    - the km -> AU conversion and Earth-offset shift applied to the MMS
      position ([plot_spacecraft_positions] of [psp_plus_mms.py], [main] and
      [analyze_psp_mms_parker] of [psp_plus_mms_plus_parker_spiral.py]);
    - [compute_parker_spiral_surface] of [psp_plus_mms_plus_parker_spiral.py];
    - the interactive reader [get_input] of the same file.

    [compute_parker_spiral_surface] is embedded twice.  [Module Binary64]
    has it on IEEE binary64 numbers, as Python and NumPy run it: the
    operations on Python floats raise where Python raises
    ([ZeroDivisionError], [OverflowError]), [np.linspace] raises on a
    negative count, and the array operations produce infinities and NaNs
    without raising; [np.sin] and [np.cos] are parameters.  What the call
    raises, what it returns and the sign of the field are stated there.
    [Module parker_spiral] has the same lines in exact real arithmetic
    ([R]), where the only exception left is the division by a period or a
    wind speed that is exactly zero: it is the reading in which the formulas
    of the specification are compared with those of the code.  The
    conversions of positions are evaluated in both. *)

From Stdlib Require Import Floats.
From Stdlib Require Import String Ascii Bool NArith List Reals Lra Lia.
Import ListNotations.

Open Scope R_scope.

(** ** Python values shared by the modules *)

(** A position, as the 3-tuples of floats passed around by the scripts. *)
Definition Vec3 : Type := (R * R * R)%type.

(** An exception is identified by the name of its class. *)
Definition exn : Type := string.

(** The outcome of a Python call: an exception raised, or a returned value. *)
Definition Py (A : Type) : Type := (exn + A)%type.

Definition ret {A : Type} (a : A) : Py A := inr a.
Definition raise {A : Type} (e : exn) : Py A := inl e.

Definition bind {A B : Type} (m : Py A) (k : A -> Py B) : Py B :=
  match m with
  | inl e => inl e
  | inr a => k a
  end.

Notation "x <- m ;; k" := (bind m (fun x => k))
  (at level 61, m at next level, right associativity).

(** [a / b] on two Python floats: a zero divisor raises. *)
Definition pydiv (a b : R) : Py R :=
  if Req_dec_T b 0 then raise "ZeroDivisionError"%string else ret (a / b).

(** ** NumPy operations used by the surface model *)

(** A 2-D array, as a list of rows. *)
Definition Grid : Type := list (list R).

(** [np.radians]. *)
Definition radians (deg : R) : R := deg * PI / 180.

(** [np.linspace(start, stop, num)] with the default [endpoint=True]: the
    samples [start + k * step] with [step = (stop - start) / (num - 1)], the
    last one overwritten by [stop]; a single sample is [start]. *)
Definition linspace (start stop : R) (num : nat) : list R :=
  match num with
  | O => []
  | S O => [start]
  | S (S _ as div) =>
      map (fun k => start + INR k * ((stop - start) / INR div)) (seq 0 div)
      ++ [stop]
  end.

(** [np.meshgrid(xs, ys)] with the default [indexing='xy']: both results have
    one row per element of [ys] and one column per element of [xs]. *)
Definition meshgrid (xs ys : list R) : Grid * Grid :=
  (map (fun _ => xs) ys, map (fun y => map (fun _ => y) xs) ys).

(** Elementwise application of a function to one array, and to two arrays
    of the same shape. *)
Definition gmap (f : R -> R) (A : Grid) : Grid := map (map f) A.

Fixpoint zipWith {A B C : Type} (f : A -> B -> C) (l1 : list A) (l2 : list B)
  : list C :=
  match l1, l2 with
  | a :: l1', b :: l2' => f a b :: zipWith f l1' l2'
  | _, _ => []
  end.

Definition gmap2 (f : R -> R -> R) (A B : Grid) : Grid :=
  zipWith (zipWith f) A B.

(** The cell [A[i][j]], when it exists. *)
Definition cell (A : Grid) (i j : nat) : option R :=
  match nth_error A i with
  | Some row => nth_error row j
  | None => None
  end.

(** [A.shape == (rows, cols)]. *)
Definition has_shape (A : Grid) (rows cols : nat) : Prop :=
  length A = rows /\ Forall (fun row => length row = cols) A.

(** The grid [f y x] for every [y] of [ys] (rows) and [x] of [xs]
    (columns). *)
Definition outer (f : R -> R -> R) (ys xs : list R) : Grid :=
  map (fun y => map (f y) xs) ys.

(** ** psp_plus_mms.py *)

Module psp_plus_mms.

(** [AU_km = 149597870.7] in [plot_spacecraft_positions]. *)
Definition AU_km : R := 149597870.7.

Definition earth_heliocentric : Vec3 := (1.0, 0.0, 0.0).

(** The position plotted for MMS by [plot_spacecraft_positions]: the
    km -> AU conversion ([mms_pos_au_rel]) followed by the shift by Earth's
    heliocentric offset ([mms_heliocentric]). *)
Definition mms_pos_au_rel (mms_pos : Vec3) : Vec3 :=
  let '(m0, m1, m2) := mms_pos in
  (m0 / AU_km, m1 / AU_km, m2 / AU_km).

Definition mms_heliocentric (mms_pos : Vec3) : Vec3 :=
  let '(r0, r1, r2) := mms_pos_au_rel mms_pos in
  let '(e0, e1, e2) := earth_heliocentric in
  (e0 + r0, e1 + r1, e2 + r2).

End psp_plus_mms.

(** ** psp_plus_mms_plus_parker_spiral.py *)

Module parker_spiral.

(** The literal [1.4959787e8] used by [compute_parker_spiral_surface],
    [analyze_psp_mms_parker] and [main]. *)
Definition AU_km : R := 1.4959787e8.

Definition earth_heliocentric : Vec3 := (1.0, 0.0, 0.0).

(** [main], step 3: [mms_pos_au_rel] and [mms_heliocentric]. *)
Definition mms_pos_au_rel (mms_pos : Vec3) : Vec3 :=
  let '(m0, m1, m2) := mms_pos in
  (m0 / 1.4959787e8, m1 / 1.4959787e8, m2 / 1.4959787e8).

Definition mms_heliocentric (mms_pos : Vec3) : Vec3 :=
  let '(r0, r1, r2) := mms_pos_au_rel mms_pos in
  let '(e0, e1, e2) := earth_heliocentric in
  (e0 + r0, e1 + r1, e2 + r2).

(** [analyze_psp_mms_parker], "trajectory" branch: [mms_pos_au] and
    [mms_helio]. *)
Definition mms_pos_au (mms_pos : Vec3) : Vec3 :=
  let '(m0, m1, m2) := mms_pos in
  (m0 / AU_km, m1 / AU_km, m2 / AU_km).

Definition mms_helio (mms_pos : Vec3) : Vec3 :=
  let '(a0, a1, a2) := mms_pos_au mms_pos in
  (1.0 + a0, a1, a2).

(** [calculate_parker_spiral] (never called) converts AU to km with the
    literal [149597870.7]. *)
Definition calculate_parker_spiral_km_per_AU : R := 149597870.7.

(** The keyword arguments of [compute_parker_spiral_surface]; the sample
    counts are non-negative ([np.linspace] rejects a negative count). *)
Record SpiralArgs : Type := {
  r_min : R;
  r_max : R;
  n_r : nat;
  n_phi : nat;
  tilt_deg : R;
  amp_deg : R;
  solar_rot_days : R;
  v_sw_km_s : R
}.

(** The defaults of the signature. *)
Definition defaults : SpiralArgs := {|
  r_min := 0.1; r_max := 1.5; n_r := 100; n_phi := 100;
  tilt_deg := 10.0; amp_deg := 15.0;
  solar_rot_days := 25.4; v_sw_km_s := 400.0
|}.

(** Two argument sets the signature accepts: the radii given in decreasing
    order, and a wind speed of zero. *)
Definition swapped_radii : SpiralArgs := {|
  r_min := 1.5; r_max := 0.1; n_r := 100; n_phi := 100;
  tilt_deg := 10.0; amp_deg := 15.0;
  solar_rot_days := 25.4; v_sw_km_s := 400.0
|}.

Definition zero_wind : SpiralArgs := {|
  r_min := 0.1; r_max := 1.5; n_r := 100; n_phi := 100;
  tilt_deg := 10.0; amp_deg := 15.0;
  solar_rot_days := 25.4; v_sw_km_s := 0.0
|}.

(** [v_sw_AU_day = (v_sw_km_s * 86400) / AU_km]. *)
Definition v_sw_AU_day (a : SpiralArgs) : R :=
  (v_sw_km_s a * 86400) / AU_km.

Definition r_vals (a : SpiralArgs) : list R :=
  linspace (r_min a) (r_max a) (n_r a).

Definition phi_vals (a : SpiralArgs) : list R :=
  linspace 0 (2 * PI) (n_phi a).

(** [compute_parker_spiral_surface] in exact real arithmetic: returns
    [(x, y, z, B)].  No operation overflows, underflows or yields a NaN
    here, so that a division by a period or by a wind speed that is exactly
    zero is the only exception; the binary64 behaviour is that of
    [Binary64.compute_parker_spiral_surface].  The array the source calls
    [R] is [Rr] here. *)
Definition compute_parker_spiral_surface (a : SpiralArgs)
  : Py (Grid * Grid * Grid * Grid) :=
  let tilt := radians (tilt_deg a) in
  let amp := radians (amp_deg a) in
  omega <- pydiv (2 * PI) (solar_rot_days a) ;;
  let v := v_sw_AU_day a in
  alpha <- pydiv omega v ;;
  let '(Rr, Phi) := meshgrid (r_vals a) (phi_vals a) in
  let theta := gmap (fun phi => (PI / 2 - tilt) + amp * sin (2 * phi)) Phi in
  let Phi_spiral :=
    gmap2 (fun phi r => phi + alpha * (r - r_min a)) Phi Rr in
  let R_sin_theta := gmap2 (fun r th => r * sin th) Rr theta in
  let x := gmap2 (fun rs ps => rs * cos ps) R_sin_theta Phi_spiral in
  let y := gmap2 (fun rs ps => rs * sin ps) R_sin_theta Phi_spiral in
  let z := gmap2 (fun r th => r * cos th) Rr theta in
  w <- pydiv omega v ;;
  let B0_norm := 1 / sqrt (1 + w ^ 2 * (cos tilt) ^ 2) in
  let B :=
    gmap2 (fun r th =>
             B0_norm * (1 / r) ^ 2
             * sqrt (1 + (omega * r / v) ^ 2 * (sin th) ^ 2))
          Rr theta in
  ret (x, y, z, B).

(** Arguments of moderate magnitude: a rotation period and a wind speed
    between [1e-30] and [1e30] in absolute value, radii of at most [1e30].
    For these no binary64 operation of the function overflows, and the wind
    speed in AU per day is not rounded to zero. *)
Definition moderate (a : SpiralArgs) : Prop :=
  1e-30 <= Rabs (solar_rot_days a) <= 1e30
  /\ 1e-30 <= Rabs (v_sw_km_s a) <= 1e30
  /\ Rabs (r_min a) <= 1e30 /\ Rabs (r_max a) <= 1e30.

(** *** [get_input] *)

(** A Python [str] is a sequence of code points. *)
Definition pystr : Type := list N.

Definition of_string (s : string) : pystr :=
  map N_of_ascii (list_ascii_of_string s).

(** [str.isspace] on one code point. *)
Definition isspace (c : N) : bool :=
  ((9 <=? c) && (c <=? 13) || (28 <=? c) && (c <=? 32)
   || (c =? 133) || (c =? 160) || (c =? 5760)
   || (8192 <=? c) && (c <=? 8202)
   || (c =? 8232) || (c =? 8233) || (c =? 8239) || (c =? 8287)
   || (c =? 12288))%N%bool.

(** [str.strip()]: leading, then trailing, whitespace removed. *)
Fixpoint lstrip (s : pystr) : pystr :=
  match s with
  | [] => []
  | c :: s' => if isspace c then lstrip s' else s
  end.

Definition rstrip (s : pystr) : pystr := rev (lstrip (rev s)).

Definition strip (s : pystr) : pystr := rstrip (lstrip s).

Definition is_empty (s : pystr) : bool :=
  match s with
  | [] => true
  | _ :: _ => false
  end.

Section GetInput.

(** The values a call can return: the default handed in, or the result
    of [float]. *)
Variable V : Type.

(** The rendering of [{default}] in an f-string. *)
Variable fmt : V -> pystr.

(** The prompt handed to [input], and the warning printed. *)
Definition prompt_text (prompt : pystr) (default : V) : pystr :=
  prompt ++ of_string " [default: " ++ fmt default ++ of_string "]: ".

Definition warning_text (default : V) : pystr :=
  of_string "Invalid input. Using default value: " ++ fmt default.

End GetInput.

End parker_spiral.

(** ** The same conversions on IEEE binary64 numbers *)

Module Binary64.

Local Open Scope float_scope.

Definition Vec3f : Type := (float * float * float)%type.

(** [149597870.7] and [1.4959787e8] as Python reads them: the nearest
    binary64 values. *)
Definition lit_149597870_7 : float := 0x1.1d55d5d666666p+27.
Definition lit_1_4959787e8 : float := 149597870.

(** [plot_spacecraft_positions] of [psp_plus_mms.py]. *)
Definition plot_mms_heliocentric (mms_pos : Vec3f) : Vec3f :=
  let '(m0, m1, m2) := mms_pos in
  let AU_km := lit_149597870_7 in
  (1 + m0 / AU_km, 0 + m1 / AU_km, 0 + m2 / AU_km).

(** [main] of [psp_plus_mms_plus_parker_spiral.py]. *)
Definition main_mms_heliocentric (mms_pos : Vec3f) : Vec3f :=
  let '(m0, m1, m2) := mms_pos in
  (1 + m0 / lit_1_4959787e8, 0 + m1 / lit_1_4959787e8,
   0 + m2 / lit_1_4959787e8).

Definition eqb3 (a b : Vec3f) : bool :=
  let '(a0, a1, a2) := a in
  let '(b0, b1, b2) := b in
  (PrimFloat.eqb a0 b0 && PrimFloat.eqb a1 b1 && PrimFloat.eqb a2 b2)%bool.

(** *** [compute_parker_spiral_surface] on binary64 numbers

    The function as Python and NumPy run it.  Every [+], [-], [*], [/] and
    square root below is the IEEE operation, rounded to nearest.  The
    operations on Python floats raise where Python raises; the operations
    on NumPy scalars and arrays never do. *)

(** [np.pi]. *)
Definition pi : float := 0x1.921fb54442d18p+1.

(** [a / b] on two Python floats: a divisor equal to zero, of either sign,
    raises; an overflowing quotient is an infinity. *)
Definition pydiv (a b : float) : Py float :=
  if b =? 0 then raise "ZeroDivisionError"%string else ret (a / b).

(** [x ** 2] on a Python float ([float_pow]): an infinity or a NaN is
    squared silently; a finite [x] whose square overflows raises
    [OverflowError].  The value of C's [pow(x, 2.0)] is taken to be the
    correctly rounded square. *)
Definition pypow2 (x : float) : Py float :=
  if is_finite x && is_infinity (x * x) then raise "OverflowError"%string
  else ret (x * x).

(** [np.radians]: the multiplication by the constant [pi / 180]. *)
Definition radians (deg : float) : float := deg * (pi / 180).

(** [np.sin] and [np.cos], which IEEE 754 does not fix: any two functions
    on binary64 numbers. *)
Record Libm : Type := {
  np_sin : float -> float;
  np_cos : float -> float
}.

(** Small-angle stand-ins, to run the examples. *)
Definition small_angle : Libm :=
  {| np_sin := fun x => x; np_cos := fun x => 1 - x * x / 2 |}.

(** The keyword arguments: the counts are Python integers. *)
Record SpiralArgs : Type := {
  r_min : float;
  r_max : float;
  n_r : Z;
  n_phi : Z;
  tilt_deg : float;
  amp_deg : float;
  solar_rot_days : float;
  v_sw_km_s : float
}.

(** The defaults of the signature, and five other argument sets: the radii
    in decreasing order, a wind speed of zero, and three that satisfy
    [0 < r_min < r_max] with a positive period and wind speed: a period of
    [1e-160] days, a period of [1e-320] days, a wind speed of [1e-323]
    km/s. *)
Definition defaults : SpiralArgs := {|
  r_min := 0x1.999999999999ap-4; r_max := 1.5; n_r := 100; n_phi := 100;
  tilt_deg := 10; amp_deg := 15;
  solar_rot_days := 0x1.9666666666666p+4; v_sw_km_s := 400
|}.

Definition swapped_radii : SpiralArgs := {|
  r_min := 1.5; r_max := 0x1.999999999999ap-4; n_r := 100; n_phi := 100;
  tilt_deg := 10; amp_deg := 15;
  solar_rot_days := 0x1.9666666666666p+4; v_sw_km_s := 400
|}.

Definition zero_wind : SpiralArgs := {|
  r_min := 0x1.999999999999ap-4; r_max := 1.5; n_r := 100; n_phi := 100;
  tilt_deg := 10; amp_deg := 15;
  solar_rot_days := 0x1.9666666666666p+4; v_sw_km_s := 0
|}.

Definition period_1e_160 : SpiralArgs := {|
  r_min := 0x1.999999999999ap-4; r_max := 1.5; n_r := 100; n_phi := 100;
  tilt_deg := 10; amp_deg := 15;
  solar_rot_days := 0x1.67e9c127b6e74p-532; v_sw_km_s := 400
|}.


Definition wind_1e_323 : SpiralArgs := {|
  r_min := 0x1.999999999999ap-4; r_max := 1.5; n_r := 100; n_phi := 100;
  tilt_deg := 10; amp_deg := 15;
  solar_rot_days := 0x1.9666666666666p+4;
  v_sw_km_s := 0x0.0000000000002p-1022
|}.

(** What the specification asks of the parameters: finite numbers with
    [0 < r_min < r_max], and a positive period and wind speed. *)
Definition valid (a : SpiralArgs) : bool :=
  is_finite (r_min a) && is_finite (r_max a)
  && is_finite (solar_rot_days a) && is_finite (v_sw_km_s a)
  && (0 <? r_min a) && (r_min a <? r_max a)
  && (0 <? solar_rot_days a) && (0 <? v_sw_km_s a).

(** A 2-D array of binary64 numbers, as a list of rows. *)
Definition Grid : Type := list (list float).

(** [np.arange(0, num)] as floats: the integers below [num]. *)
Fixpoint arange (num : nat) : list float :=
  match num with
  | O => []
  | S n => arange n ++ [of_uint63 (Uint63.of_Z (Z.of_nat n))]
  end.

(** [np.linspace(start, stop, num)] with [endpoint=True].  The samples for
    a count that is not negative: [arange(0, num)] is scaled by
    [step = delta / div] (or divided by [div] and scaled by [delta] when the
    step is zero, or scaled by [delta] when there is no step), shifted by
    [start], and from two samples on the last one is overwritten by
    [stop]. *)
Definition linspace_samples (start stop : float) (num : Z) : list float :=
  let div_ := (num - 1)%Z in
  let delta := stop - start in
  let y := arange (Z.to_nat num) in
  let y :=
    if (0 <? div_)%Z then
      let d := of_uint63 (Uint63.of_Z div_) in
      let step := delta / d in
      if step =? 0 then map (fun k => k / d * delta) y
      else map (fun k => k * step) y
    else map (fun k => k * delta) y in
  let y := map (fun v => v + start) y in
  if (1 <? num)%Z then removelast y ++ [stop] else y.

(** A negative count raises. *)
Definition linspace (start stop : float) (num : Z) : Py (list float) :=
  if (num <? 0)%Z then raise "ValueError"%string
  else ret (linspace_samples start stop num).

(** [np.meshgrid(xs, ys)], and the elementwise operations. *)
Definition meshgrid (xs ys : list float) : Grid * Grid :=
  (map (fun _ => xs) ys, map (fun y => map (fun _ => y) xs) ys).

Definition gmap (f : float -> float) (A : Grid) : Grid := map (map f) A.

Definition gmap2 (f : float -> float -> float) (A B : Grid) : Grid :=
  zipWith (zipWith f) A B.

Definition cell (A : Grid) (i j : nat) : option float :=
  match nth_error A i with
  | Some row => nth_error row j
  | None => None
  end.

Definition has_shape (A : Grid) (rows cols : nat) : Prop :=
  length A = rows /\ Forall (fun row => length row = cols) A.

Definition outer (f : float -> float -> float) (ys xs : list float) : Grid :=
  map (fun y => map (f y) xs) ys.

(** [v_sw_AU_day = (v_sw_km_s * 86400) / AU_km]. *)
Definition v_sw_AU_day (a : SpiralArgs) : float :=
  (v_sw_km_s a * 86400) / lit_1_4959787e8.

(** [compute_parker_spiral_surface]: returns [(x, y, z, B)].  The array
    the source calls [R] is [Rr] here. *)
Definition compute_parker_spiral_surface (m : Libm) (a : SpiralArgs)
  : Py (Grid * Grid * Grid * Grid) :=
  let tilt := radians (tilt_deg a) in
  let amp := radians (amp_deg a) in
  omega <- pydiv (2 * pi) (solar_rot_days a) ;;
  let v := v_sw_AU_day a in
  alpha <- pydiv omega v ;;
  r_vals <- linspace (r_min a) (r_max a) (n_r a) ;;
  phi_vals <- linspace 0 (2 * pi) (n_phi a) ;;
  let '(Rr, Phi) := meshgrid r_vals phi_vals in
  let theta :=
    gmap (fun phi => (pi / 2 - tilt) + amp * np_sin m (2 * phi)) Phi in
  let Phi_spiral :=
    gmap2 (fun phi r => phi + alpha * (r - r_min a)) Phi Rr in
  let R_sin_theta := gmap2 (fun r th => r * np_sin m th) Rr theta in
  let x := gmap2 (fun rs ps => rs * np_cos m ps) R_sin_theta Phi_spiral in
  let y := gmap2 (fun rs ps => rs * np_sin m ps) R_sin_theta Phi_spiral in
  let z := gmap2 (fun r th => r * np_cos m th) Rr theta in
  w <- pydiv omega v ;;
  w2 <- pypow2 w ;;
  let c := np_cos m tilt in
  let B0_norm := 1 / PrimFloat.sqrt (1 + w2 * (c * c)) in
  let B :=
    gmap2 (fun r th =>
             B0_norm * (1 / r * (1 / r))
             * PrimFloat.sqrt (1 + (omega * r / v) * (omega * r / v)
                         * (np_sin m th * np_sin m th)))
          Rr theta in
  ret (x, y, z, B).

(** The samples of a call, its scalars, and the value of one cell from its
    azimuth and radius samples, as the elementwise operations compute it. *)
Definition r_vals (a : SpiralArgs) : list float :=
  linspace_samples (r_min a) (r_max a) (n_r a).

Definition phi_vals (a : SpiralArgs) : list float :=
  linspace_samples 0 (2 * pi) (n_phi a).

Definition omega (a : SpiralArgs) : float := 2 * pi / solar_rot_days a.

Definition alpha (a : SpiralArgs) : float := omega a / v_sw_AU_day a.

Definition theta (m : Libm) (a : SpiralArgs) (phi : float) : float :=
  (pi / 2 - radians (tilt_deg a))
  + radians (amp_deg a) * np_sin m (2 * phi).

Definition Phi_spiral (a : SpiralArgs) (phi r : float) : float :=
  phi + alpha a * (r - r_min a).

Definition point_x (m : Libm) (a : SpiralArgs) (phi r : float) : float :=
  r * np_sin m (theta m a phi) * np_cos m (Phi_spiral a phi r).

Definition point_y (m : Libm) (a : SpiralArgs) (phi r : float) : float :=
  r * np_sin m (theta m a phi) * np_sin m (Phi_spiral a phi r).

Definition point_z (m : Libm) (a : SpiralArgs) (phi r : float) : float :=
  r * np_cos m (theta m a phi).

Definition B0_norm (m : Libm) (a : SpiralArgs) : float :=
  1 / PrimFloat.sqrt (1 + alpha a * alpha a
                * (np_cos m (radians (tilt_deg a))
                   * np_cos m (radians (tilt_deg a)))).

Definition field (m : Libm) (a : SpiralArgs) (phi r : float) : float :=
  B0_norm m a * (1 / r * (1 / r))
  * PrimFloat.sqrt (1 + (omega a * r / v_sw_AU_day a) * (omega a * r / v_sw_AU_day a)
              * (np_sin m (theta m a phi) * np_sin m (theta m a phi))).

(** The winding rate with the wind speed converted as the specification
    says, with 149,597,870.7 km per AU. *)
Definition alpha_spec (a : SpiralArgs) : float :=
  omega a / ((v_sw_km_s a * 86400) / lit_149597870_7).

(** The outer products of the
    cell formulas over the azimuth samples (rows) and the radius samples
    (columns). *)
Definition cell_grids (m : Libm) (a : SpiralArgs)
  : Grid * Grid * Grid * Grid :=
  (outer (point_x m a) (phi_vals a) (r_vals a),
   outer (point_y m a) (phi_vals a) (r_vals a),
   outer (point_z m a) (phi_vals a) (r_vals a),
   outer (field m a) (phi_vals a) (r_vals a)).



(** The arguments for which no line of the function raises. *)
Definition returns (a : SpiralArgs) : bool :=
  negb (solar_rot_days a =? 0) && negb (v_sw_AU_day a =? 0)
  && (0 <=? n_r a)%Z && (0 <=? n_phi a)%Z
  && negb (is_finite (alpha a) && is_infinity (alpha a * alpha a)).

End Binary64.

(** ** The geometric and field model, as the specification words it *)

Module spec_model.

Import parker_spiral.

Section Model.

(** The parameters, and the wind speed already converted to AU/day. *)
Variable a : SpiralArgs.
Variable wind_speed_AU_per_day : R.

Definition tilt_radians : R := radians (tilt_deg a).
Definition amplitude_radians : R := radians (amp_deg a).

(** Solar angular rotation rate and winding rate. *)
Definition omega : R := 2 * PI / solar_rot_days a.
Definition alpha : R := omega / wind_speed_AU_per_day.

(** Polar angle and spiral-twisted azimuth of the cell [(r, phi)]. *)
Definition theta (phi : R) : R :=
  (PI / 2 - tilt_radians) + amplitude_radians * sin (2 * phi).

Definition twisted (r phi : R) : R := phi + alpha * (r - r_min a).

(** Cartesian coordinates of the cell. *)
Definition point_x (r phi : R) : R :=
  r * sin (theta phi) * cos (twisted r phi).
Definition point_y (r phi : R) : R :=
  r * sin (theta phi) * sin (twisted r phi).
Definition point_z (r phi : R) : R := r * cos (theta phi).

(** Normalisation constant and field magnitude. *)
Definition B0 : R :=
  1 / sqrt (1 + (omega / wind_speed_AU_per_day) ^ 2
                * (cos tilt_radians) ^ 2).

Definition field (r th : R) : R :=
  B0 * (1 / r) ^ 2
  * sqrt (1 + (omega * r / wind_speed_AU_per_day) ^ 2 * (sin th) ^ 2).

End Model.

(** Valid parameters, as the specification requires them. *)
Definition valid (a : SpiralArgs) : Prop :=
  0 < r_min a /\ r_min a < r_max a
  /\ 0 < solar_rot_days a /\ 0 < v_sw_km_s a.

(** The wind speed in AU per day as the specification converts it: with
    149,597,870.7 km per AU and 86,400 seconds per day. *)
Definition wind_speed_AU_per_day_of (a : SpiralArgs) : R :=
  v_sw_km_s a * 86400 / 149597870.7.

End spec_model.

(** ** The terminal *)

Module terminal.

Import parker_spiral.

(** The lines still to be read from standard input, and what has been
    written so far, oldest first. *)
Record Console : Type := {
  stdin : list pystr;
  stdout : list pystr
}.

(** A Python call that reads or writes the terminal. *)
Definition IO (A : Type) : Type := Console -> Py A * Console.

Definition io_ret {A : Type} (a : A) : IO A := fun c => (inr a, c).

Definition io_bind {A B : Type} (m : IO A) (k : A -> IO B) : IO B :=
  fun c =>
    match m c with
    | (inl e, c') => (inl e, c')
    | (inr a, c') => k a c'
    end.

(** A call that touches neither stream. *)
Definition lift {A : Type} (m : Py A) : IO A := fun c => (m, c).

Definition write (s : pystr) (c : Console) : Console :=
  {| stdin := stdin c; stdout := stdout c ++ [s] |}.

(** [print(s)]. *)
Definition print (s : pystr) : IO unit := fun c => (inr tt, write s c).

(** [input(prompt)] on a terminal whose lines are given: the prompt is
    written, then a line is read; at the end of input [EOFError] is raised.
    An interrupt at the prompt, which makes [input] raise
    [KeyboardInterrupt], is not among the things this terminal does. *)
Definition input (prompt : pystr) : IO pystr :=
  fun c =>
    match stdin c with
    | [] => (inl "EOFError"%string, write prompt c)
    | line :: rest =>
        (inr line, {| stdin := rest; stdout := stdout c ++ [prompt] |})
    end.

(** [except Exception] catches every exception but those deriving from
    [BaseException] alone. *)
Definition is_Exception (e : exn) : bool :=
  negb (String.eqb e "KeyboardInterrupt"
        || String.eqb e "SystemExit"
        || String.eqb e "GeneratorExit").

End terminal.

Notation "x <<- m ;; k" := (terminal.io_bind m (fun x => k))
  (at level 61, m at next level, right associativity).

(** ** psp_plus_mms_plus_parker_spiral.py, continued *)

Module parker_spiral_more.

Import parker_spiral.
Import terminal.

(** [calculate_parker_spiral(r_range, theta_range, omega, v_sw)]: returns
    [(x, y, z)]. *)
Definition calculate_parker_spiral (r_range theta_range : list R)
           (omega v_sw : R) : Grid * Grid * Grid :=
  let '(r, theta) := meshgrid r_range theta_range in
  let phi := gmap (fun r => - omega * (r * 149597870.7) / v_sw) r in
  let wave_number := 4 in
  let wave_amplitude := 0.05 in
  let decay_factor := gmap (fun r => exp (- 2 * r)) r in
  let z_wave :=
    gmap2 (fun p d => wave_amplitude * sin (wave_number * p) * d)
          phi decay_factor in
  let x := gmap2 (fun r th => r * cos th) r theta in
  let y := gmap2 (fun r th => r * sin th) r theta in
  let z := z_wave in
  (x, y, z).

(** [np.min] and [np.max] of a 2-D array: the reduction of an array with
    no element raises [ValueError]. *)
Definition np_min (A : Grid) : Py R :=
  match concat A with
  | [] => raise "ValueError"%string
  | c :: cs => ret (fold_left Rmin cs c)
  end.

Definition np_max (A : Grid) : Py R :=
  match concat A with
  | [] => raise "ValueError"%string
  | c :: cs => ret (fold_left Rmax cs c)
  end.

(** The arguments [vmin] and [vmax] handed to [colors.LogNorm] by [main] and
    by [plot_positions_with_parker]. *)
Definition lognorm_args (B : Grid) : Py (R * R) :=
  vmin <- np_min B ;;
  vmax <- np_max B ;;
  ret (vmin, vmax).

Section GetInput.

(** The values a call can return, the builtin [float] on a [str] ([None]
    stands for [ValueError], the only exception it raises on a string), and
    the rendering of [{default}] in an f-string. *)
Variable V : Type.
Variable float_of_str : pystr -> option V.
Variable fmt : V -> pystr.

(** The builtin [input], whatever it does on the terminal. *)
Variable input : pystr -> IO pystr.

(** [get_input(prompt, default)].  The call of [input], on line 15, is not
    inside the [try] statement. *)
Definition get_input (prompt : pystr) (default : V) : IO V :=
  user_input <<- input (prompt_text V fmt prompt default) ;;
  if is_empty (strip user_input) then io_ret default
  else
    match float_of_str user_input with
    | Some v => io_ret v
    | None =>
        _ <<- print (warning_text V fmt default) ;;
        io_ret default
    end.

End GetInput.

Section Main.

(** The builtin [float] on a line that denotes a finite number ([None]: the
    line raises [ValueError]; a line denoting an infinity or a NaN has no
    counterpart here), and the rendering of a float in an f-string. *)
Variable float_of_str : pystr -> option R.
Variable fmt : R -> pystr.

(** What [get_input(prompt, default)] returns when the line read is [line],
    branch by branch: the default for a blank line, the number for a line
    [float] accepts, the default for any other line. *)
Definition value_read (default : R) (line : pystr) : R :=
  if is_empty (strip line) then default
  else match float_of_str line with
       | Some v => v
       | None => default
       end.

(** The arguments [main] builds from the five values read. *)
Definition main_args (tilt_deg amp_deg solar_rot_days v_sw_km_s r_max : R)
  : SpiralArgs :=
  {| r_min := 0.1; r_max := r_max; n_r := 100; n_phi := 100;
     tilt_deg := tilt_deg; amp_deg := amp_deg;
     solar_rot_days := solar_rot_days; v_sw_km_s := v_sw_km_s |}.

(** [main], steps 1 and 2: the parameters are read and the surface is
    computed.  Nothing in [main] catches an exception. *)
Definition main_surface : IO (Grid * Grid * Grid * Grid) :=
  let get_input := get_input R float_of_str fmt input in
  _ <<- print (of_string
    "Enter parameters for the Parker Spiral / Heliospheric Current Sheet.") ;;
  _ <<- print (of_string "Press Enter to use default values.") ;;
  tilt_deg <<- get_input (of_string "Tilt angle (deg)") 10.0 ;;
  amp_deg <<- get_input (of_string "Undulation amplitude (deg)") 15.0 ;;
  solar_rot_days <<-
    get_input (of_string "Solar rotation period (days)") 25.4 ;;
  v_sw_km_s <<- get_input (of_string "Solar wind speed (km/s)") 400.0 ;;
  r_max <<- get_input (of_string "Radial extent (AU)") 1.5 ;;
  lift (compute_parker_spiral_surface
          (main_args tilt_deg amp_deg solar_rot_days v_sw_km_s r_max)).

End Main.

End parker_spiral_more.

(** ** psp_plus_mms.py and mms.py: the plots in GSE *)

Module gse_plots.

(** [plot_both_positions(psp_pos, mms_pos)] of [psp_plus_mms.py]: the points
    plotted for PSP and for MMS.  Both arguments are divided by [AU]. *)
Definition plot_both_positions (psp_pos mms_pos : Vec3) : Vec3 * Vec3 :=
  let AU := 149597870.7 in
  let '(p0, p1, p2) := psp_pos in
  let '(m0, m1, m2) := mms_pos in
  let psp_pos_au := (p0 / AU, p1 / AU, p2 / AU) in
  let mms_pos_au := (m0 / AU, m1 / AU, m2 / AU) in
  (psp_pos_au, mms_pos_au).

(** [plot_positions(mms_pos)] of [mms.py]: the point plotted for MMS. *)
Definition plot_positions (mms_pos : Vec3) : Vec3 :=
  let AU := 149597870.7 in
  let '(m0, m1, m2) := mms_pos in
  (m0 / AU, m1 / AU, m2 / AU).

End gse_plots.

(** ** main.py *)

Module main_py.

Import parker_spiral.
Import terminal.

(** A string literal that starts with a newline. *)
Definition nl (s : string) : pystr := 10%N :: of_string s.

(** [==] on two strings. *)
Fixpoint pystr_eqb (s t : pystr) : bool :=
  match s, t with
  | [], [] => true
  | a :: s', b :: t' => N.eqb a b && pystr_eqb s' t'
  | _, _ => false
  end.

(** [d[k]] on a dictionary with integer keys: a missing key raises. *)
Definition dict_get (d : list (Z * pystr)) (k : Z) : Py pystr :=
  match find (fun kv => Z.eqb (fst kv) k) d with
  | Some kv => ret (snd kv)
  | None => raise "KeyError"%string
  end.

Definition spacecraft_map : list (Z * pystr) :=
  [(1%Z, of_string "psp"); (2%Z, of_string "mms");
   (3%Z, of_string "psp+mms"); (4%Z, of_string "psp+mms+parker")].

Definition analysis_map : list (Z * pystr) :=
  [(1%Z, of_string "trajectory"); (2%Z, of_string "data_retrieval")].

Section GetUserInput.

(** The builtin [int] on a line: [None] stands for [ValueError]. *)
Variable int_of_str : pystr -> option Z.

(** One [while True] loop of [get_user_input]: a line is read; an integer
    within [lo..hi] ends the loop; any other integer is answered with
    [out_of_range], anything else with the [ValueError] message, and the
    loop goes round.  [out] is what has been written so far. *)
Fixpoint choice_loop (prompt : pystr) (lo hi : Z) (out_of_range : pystr)
         (lines : list pystr) (out : list pystr) : Py Z * Console :=
  match lines with
  | [] => (inl "EOFError"%string, {| stdin := []; stdout := out ++ [prompt] |})
  | line :: rest =>
      match int_of_str line with
      | Some choice =>
          if ((lo <=? choice) && (choice <=? hi))%Z then
            (inr choice, {| stdin := rest; stdout := out ++ [prompt] |})
          else
            choice_loop prompt lo hi out_of_range rest
                        ((out ++ [prompt]) ++ [out_of_range])
      | None =>
          choice_loop prompt lo hi out_of_range rest
                      ((out ++ [prompt])
                         ++ [of_string "Please enter a valid number"])
      end
  end.

Definition read_choice (prompt : pystr) (lo hi : Z) (out_of_range : pystr)
  : IO Z :=
  fun c => choice_loop prompt lo hi out_of_range (stdin c) (stdout c).

(** [get_user_input()]: returns [(spacecraft, analysis)]. *)
Definition get_user_input : IO (pystr * pystr) :=
  _ <<- print (nl "Spacecraft Trajectory Analyzer") ;;
  _ <<- print (of_string "============================") ;;
  _ <<- print (nl "Available spacecraft options:") ;;
  _ <<- print (of_string "1. PSP (Parker Solar Probe)") ;;
  _ <<- print (of_string "2. MMS (Magnetospheric Multiscale)") ;;
  _ <<- print (of_string "3. PSP + MMS") ;;
  _ <<- print (of_string "4. PSP + MMS + Parker Spiral") ;;
  spacecraft_choice <<-
    read_choice (nl "Enter your choice (1-4): ") 1 4
                (of_string "Please enter a number between 1 and 4") ;;
  spacecraft <<- lift (dict_get spacecraft_map spacecraft_choice) ;;
  _ <<- print (nl "Available analysis types:") ;;
  _ <<- print (of_string "1. Trajectory (show spacecraft positions)") ;;
  _ <<- print (of_string "2. Data Retrieval (not yet implemented)") ;;
  analysis_choice <<-
    read_choice (nl "Enter your choice (1-2): ") 1 2
                (of_string "Please enter either 1 or 2") ;;
  analysis <<- lift (dict_get analysis_map analysis_choice) ;;
  io_ret (spacecraft, analysis).

(** The four analyzers [main] imports, and [str(e)]. *)
Variables analyze_psp analyze_mms analyze_psp_mms analyze_psp_mms_parker
  : pystr -> IO unit.
Variable str_exn : exn -> pystr.

(** The [if]/[elif] chain of [main]. *)
Definition dispatch (spacecraft analysis : pystr) : IO unit :=
  if pystr_eqb spacecraft (of_string "psp") then analyze_psp analysis
  else if pystr_eqb spacecraft (of_string "mms") then analyze_mms analysis
  else if pystr_eqb spacecraft (of_string "psp+mms") then
    analyze_psp_mms analysis
  else if pystr_eqb spacecraft (of_string "psp+mms+parker") then
    analyze_psp_mms_parker analysis
  else io_ret tt.

(** The body of the [try] statement of [main]. *)
Definition main_try : IO unit :=
  sa <<- get_user_input ;;
  _ <<- print (nl "Analyzing " ++ fst sa ++ of_string " with " ++ snd sa
                  ++ of_string " analysis...") ;;
  dispatch (fst sa) (snd sa).

(** [main()]: the [try] statement with its two handlers, then the closing
    [input]. *)
Definition main : IO unit :=
  fun c =>
    let '(r, c1) := main_try c in
    let after_try : IO unit :=
      match r with
      | inr _ => io_ret tt
      | inl e =>
          if String.eqb e "KeyboardInterrupt" then
            print (nl "Program terminated by user")
          else if is_Exception e then
            print (nl "An error occurred: " ++ str_exn e)
          else fun c' => (inl e, c')
      end in
    (_ <<- after_try ;;
     _ <<- input (nl "Press Enter to exit...") ;;
     io_ret tt) c1.

End GetUserInput.

(** [int] restricted to the lines made of one ASCII digit, for the examples:
    every other line is refused. *)
Definition digit (l : pystr) : option Z :=
  match l with
  | [d] => if ((48 <=? d) && (d <=? 57))%N then Some (Z.of_N d - 48)%Z
           else None
  | _ => None
  end.

End main_py.

(** ** The four analyzers *)

Module analyzers.

Import parker_spiral.
Import parker_spiral_more.
Import terminal.
Import main_py.

(** [try: body / except Exception as e: handler]. *)
Definition try_except_Exception {A : Type} (body : IO A)
           (handler : exn -> IO A) : IO A :=
  fun c =>
    match body c with
    | (inl e, c') => if is_Exception e then handler e c' else (inl e, c')
    | (inr a, c') => (inr a, c')
    end.

(** What [plot_positions_with_parker] hands to matplotlib. *)
Record Scene : Type := {
  surface : Grid * Grid * Grid * Grid;
  lognorm : R * R;
  sun : Vec3;
  earth : Vec3;
  psp : Vec3;
  mms : Vec3
}.

Section Analyzers.

(** The remote queries of the module at hand: Horizons gives a position or
    raises; the MMS query gives a position or [None]. *)
Variable fetch_psp_position_horizons : IO Vec3.
Variable fetch_mms_position : IO (option Vec3).

(** The matplotlib calls of [plot_positions] ([mms.py]), of
    [plot_both_positions] and of [plot_positions_with_parker], each on the
    data the function computed. *)
Variable render_mms : Vec3 -> IO unit.
Variable render_both : Vec3 * Vec3 -> IO unit.
Variable render_parker : Scene -> IO unit.

(** [plt.figure] and [fig.add_subplot], which [plot_positions_with_parker]
    calls ahead of the computation. *)
Variable new_figure : IO unit.

(** A float in an f-string, and [str(e)]. *)
Variable fmt : R -> pystr.
Variable str_exn : exn -> pystr.

(** [f"<label>X={p[0]}, Y={p[1]}, Z={p[2]}"]. *)
Definition xyz_text (label : string) (p : Vec3) : pystr :=
  let '(p0, p1, p2) := p in
  of_string label ++ of_string "X=" ++ fmt p0 ++ of_string ", Y=" ++ fmt p1
            ++ of_string ", Z=" ++ fmt p2.

Definition unknown_text (analysis_type : pystr) : pystr :=
  of_string "Unknown analysis type: " ++ analysis_type.

(** [analyze_psp] of [jpl_approach_psp.py]. *)
Definition analyze_psp (analysis_type : pystr) : IO unit :=
  if pystr_eqb analysis_type (of_string "trajectory") then
    try_except_Exception
      (position <<- fetch_psp_position_horizons ;;
       print (xyz_text "PSP Position (km): " position))
      (fun e => print (of_string "Error getting PSP trajectory: "
                         ++ str_exn e))
  else if pystr_eqb analysis_type (of_string "data_retrieval") then
    print (of_string "PSP data retrieval not yet implemented")
  else print (unknown_text analysis_type).

(** [plot_positions] and [analyze_mms] of [mms.py]. *)
Definition plot_positions (mms_pos : Vec3) : IO unit :=
  render_mms (gse_plots.plot_positions mms_pos).

Definition analyze_mms (analysis_type : pystr) : IO unit :=
  if pystr_eqb analysis_type (of_string "trajectory") then
    try_except_Exception
      (position <<- fetch_mms_position ;;
       match position with
       | Some pos =>
           _ <<- print (xyz_text "MMS Position (km): " pos) ;;
           plot_positions pos
       | None => print (of_string "Failed to get MMS position")
       end)
      (fun e => print (of_string "Error getting MMS trajectory: "
                         ++ str_exn e))
  else if pystr_eqb analysis_type (of_string "data_retrieval") then
    print (of_string "MMS data retrieval not yet implemented")
  else print (unknown_text analysis_type).

(** [plot_both_positions] and [analyze_psp_mms] of [psp_plus_mms.py]. *)
Definition plot_both_positions (psp_pos mms_pos : Vec3) : IO unit :=
  render_both (gse_plots.plot_both_positions psp_pos mms_pos).

Definition analyze_psp_mms (analysis_type : pystr) : IO unit :=
  if pystr_eqb analysis_type (of_string "trajectory") then
    try_except_Exception
      (psp_pos <<- fetch_psp_position_horizons ;;
       mms_pos <<- fetch_mms_position ;;
       match mms_pos with
       | Some mms_pos =>
           _ <<- print (xyz_text "PSP Position (km): " psp_pos) ;;
           _ <<- print (xyz_text "MMS Position (km): " mms_pos) ;;
           plot_both_positions psp_pos mms_pos
       | None =>
           print (of_string
                    "Failed to get positions for one or both spacecraft")
       end)
      (fun e => print (of_string "Error analyzing PSP and MMS trajectories: "
                         ++ str_exn e))
  else if pystr_eqb analysis_type (of_string "data_retrieval") then
    print (of_string "PSP+MMS combined data retrieval not yet implemented")
  else print (unknown_text analysis_type).

(** [plot_positions_with_parker] and [analyze_psp_mms_parker] of
    [psp_plus_mms_plus_parker_spiral.py]. *)
Definition plot_positions_with_parker (psp_pos mms_pos : Vec3) : IO unit :=
  _ <<- new_figure ;;
  s <<- lift (compute_parker_spiral_surface defaults) ;;
  norm <<- lift (lognorm_args (snd s)) ;;
  _ <<- render_parker {| surface := s; lognorm := norm;
                         sun := (0, 0, 0); earth := (1, 0, 0);
                         psp := psp_pos; mms := mms_pos |} ;;
  print (nl "Plot saved as 'plot_with_parker_spiral.png'").

Definition analyze_psp_mms_parker (analysis_type : pystr) : IO unit :=
  if pystr_eqb analysis_type (of_string "trajectory") then
    try_except_Exception
      (psp_pos <<- fetch_psp_position_horizons ;;
       mms_pos <<- fetch_mms_position ;;
       match mms_pos with
       | Some mms_pos =>
           _ <<- print (xyz_text "PSP Position (AU): " psp_pos) ;;
           let mms_helio := mms_helio mms_pos in
           _ <<- print (xyz_text "MMS Position (AU): " mms_helio) ;;
           plot_positions_with_parker psp_pos mms_helio
       | None =>
           print (of_string
                    "Failed to get positions for one or both spacecraft")
       end)
      (fun e => print (of_string "Error analyzing trajectories: "
                         ++ str_exn e))
  else if pystr_eqb analysis_type (of_string "data_retrieval") then
    print (of_string
             "PSP+MMS+Parker Spiral data retrieval not yet implemented")
  else print (unknown_text analysis_type).

End Analyzers.

(** Each of the four modules has query functions of its own: [mms.py] and
    [jpl_approach_psp.py] define theirs, and the other two define the same
    names again below their imports.  The record holds one reading of each,
    with the plotting calls. *)
Record Services : Type := {
  jpl_fetch_psp_position_horizons : IO Vec3;
  mms_fetch_mms_position : IO (option Vec3);
  psp_mms_fetch_psp_position_horizons : IO Vec3;
  psp_mms_fetch_mms_position : IO (option Vec3);
  parker_fetch_psp_position_horizons : IO Vec3;
  parker_fetch_mms_position : IO (option Vec3);
  show_mms : Vec3 -> IO unit;
  show_both : Vec3 * Vec3 -> IO unit;
  show_parker : Scene -> IO unit;
  figure : IO unit
}.

(** [main.py] with its four imports. *)
Definition program (w : Services) (fmt : R -> pystr) (str_exn : exn -> pystr)
           (int_of_str : pystr -> option Z) : IO unit :=
  main int_of_str
       (analyze_psp (jpl_fetch_psp_position_horizons w) fmt str_exn)
       (analyze_mms (mms_fetch_mms_position w) (show_mms w) fmt str_exn)
       (analyze_psp_mms (psp_mms_fetch_psp_position_horizons w)
                        (psp_mms_fetch_mms_position w) (show_both w) fmt
                        str_exn)
       (analyze_psp_mms_parker (parker_fetch_psp_position_horizons w)
                               (parker_fetch_mms_position w) (show_parker w)
                               (figure w) fmt str_exn)
       str_exn.

End analyzers.

(** ** [fetch_mms_position] of psp_plus_mms_plus_parker_spiral.py *)

Module cdas.

Import parker_spiral.
Import terminal.
Import main_py.
Import analyzers.

(** What [CdasWs.get_data] returns, as the function reads it: [None], or a
    pair whose second component is [None] or a data set; a data set maps a
    variable name to an object whose [.values] is an array with one axis
    (scalars) or two (rows). *)
Inductive ndarray : Type :=
| Arr1 (items : list R)
| Arr2 (rows : list (list R)).

Definition Dataset : Type := list (pystr * ndarray).

Definition Response : Type := option (option Dataset).

(** [name in data] and [data[name]]. *)
Definition lookup (name : pystr) (data : Dataset) : option ndarray :=
  match find (fun kv => pystr_eqb (fst kv) name) data with
  | Some kv => Some (snd kv)
  | None => None
  end.

(** [x, y, z = a.values[0]]: the first item along the first axis, unpacked
    into three. *)
Definition first_three (a : ndarray) : Py Vec3 :=
  match a with
  | Arr1 [] => raise "IndexError"%string
  | Arr1 (_ :: _) => raise "TypeError"%string
  | Arr2 [] => raise "IndexError"%string
  | Arr2 ([x; y; z] :: _) => ret (x, y, z)
  | Arr2 (_ :: _) => raise "ValueError"%string
  end.

Definition mms1_mec_r_gse : pystr := of_string "mms1_mec_r_gse".

Section Fetch.

(** The constructor [CdasWs()], the query [cdas.get_data(dataset, ...)],
    [str.upper] and [str(e)]. *)
Variable CdasWs : IO unit.
Variable get_data : pystr -> IO Response.
Variable upper : pystr -> pystr.
Variable str_exn : exn -> pystr.

Definition fetch_mms_position (spacecraft_id : pystr) : IO (option Vec3) :=
  _ <<- print (of_string
    "Requesting MMS data from 2024-02-01T00:00:00Z to 2024-02-01T01:00:00Z") ;;
  _ <<- CdasWs ;;
  let dataset := upper spacecraft_id ++ of_string "_MEC_SRVY_L2_EPHT89D" in
  try_except_Exception
    (res <<- get_data dataset ;;
     match res with
     | None =>
         _ <<- print (of_string "No data returned for " ++ spacecraft_id) ;;
         io_ret None
     | Some None => lift (raise "TypeError"%string)
     | Some (Some data) =>
         match lookup mms1_mec_r_gse data with
         | None =>
             _ <<- print (of_string "Position data not found in response.") ;;
             io_ret None
         | Some var =>
             position <<- lift (first_three var) ;;
             io_ret (Some position)
         end
     end)
    (fun e =>
       _ <<- print (of_string "Error fetching MMS data: " ++ str_exn e) ;;
       io_ret None).

End Fetch.

End cdas.

(** * Properties *)

(** ** Arrays *)

Section Arrays.

Lemma zipWith_map_same {A B C D : Type} (f : B -> C -> D) (g : A -> B)
      (h : A -> C) (l : list A) :
  zipWith f (map g l) (map h l) = map (fun x => f (g x) (h x)) l.
Proof.
  induction l as [|x l IH]; simpl; [reflexivity|].
  now rewrite IH.
Qed.

Lemma gmap_outer (f : R -> R) (g : R -> R -> R) (ys xs : list R) :
  gmap f (outer g ys xs) = outer (fun y x => f (g y x)) ys xs.
Proof.
  unfold gmap, outer. rewrite map_map.
  apply map_ext; intro y. now rewrite map_map.
Qed.

Lemma gmap2_outer (f : R -> R -> R) (g h : R -> R -> R) (ys xs : list R) :
  gmap2 f (outer g ys xs) (outer h ys xs)
  = outer (fun y x => f (g y x) (h y x)) ys xs.
Proof.
  unfold gmap2, outer. rewrite zipWith_map_same.
  apply map_ext; intro y. apply zipWith_map_same.
Qed.

Lemma meshgrid_outer (xs ys : list R) :
  meshgrid xs ys
  = (outer (fun _ x => x) ys xs, outer (fun y _ => y) ys xs).
Proof.
  unfold meshgrid, outer. apply (f_equal2 pair); [|reflexivity].
  apply map_ext; intros _. symmetry; apply map_id.
Qed.

Lemma cell_outer (f : R -> R -> R) (ys xs : list R) (i j : nat) (y x : R) :
  nth_error ys i = Some y -> nth_error xs j = Some x ->
  cell (outer f ys xs) i j = Some (f y x).
Proof.
  intros Hy Hx. unfold cell, outer.
  rewrite nth_error_map, Hy. simpl.
  now rewrite nth_error_map, Hx.
Qed.

Lemma has_shape_outer (f : R -> R -> R) (ys xs : list R) :
  has_shape (outer f ys xs) (length ys) (length xs).
Proof.
  unfold has_shape, outer. split.
  - apply length_map.
  - apply Forall_forall. intros row Hrow.
    apply in_map_iff in Hrow. destruct Hrow as [y [<- _]].
    apply length_map.
Qed.

Lemma outer_In (f : R -> R -> R) (ys xs : list R) (row : list R) (c : R) :
  In row (outer f ys xs) -> In c row ->
  exists y x, In y ys /\ In x xs /\ c = f y x.
Proof.
  unfold outer. intros Hrow Hc.
  apply in_map_iff in Hrow. destruct Hrow as [y [<- Hy]].
  apply in_map_iff in Hc. destruct Hc as [x [<- Hx]].
  now exists y, x.
Qed.

End Arrays.

(** ** [np.linspace] *)

Section Linspace.

Variables start stop : R.

Lemma linspace_length (num : nat) : length (linspace start stop num) = num.
Proof.
  destruct num as [|[|n]]; simpl; try reflexivity.
  rewrite length_app, length_map, length_seq. simpl. lia.
Qed.

(** Every sample is on the arithmetic progression from [start] with step
    [(stop - start) / (num - 1)]. *)
Lemma linspace_nth (num k : nat) :
  (k < num)%nat ->
  nth_error (linspace start stop num) k
  = Some (start + INR k * ((stop - start) / INR (num - 1))).
Proof.
  intro Hk. destruct num as [|[|n]].
  - lia.
  - assert (k = 0%nat) by lia. subst k. simpl. f_equal. lra.
  - change (linspace start stop (S (S n)))
      with (map (fun k => start + INR k * ((stop - start) / INR (S n)))
                (seq 0 (S n)) ++ [stop]).
    replace (S (S n) - 1)%nat with (S n) by lia.
    destruct (Nat.eq_dec k (S n)) as [->|Hne].
    + rewrite nth_error_app2 by (rewrite length_map, length_seq; lia).
      rewrite length_map, length_seq, Nat.sub_diag. simpl nth_error.
      f_equal. field. apply not_0_INR. lia.
    + rewrite nth_error_app1 by (rewrite length_map, length_seq; lia).
      rewrite nth_error_map.
      rewrite (nth_error_nth' _ 0%nat) by (rewrite length_seq; lia).
      rewrite seq_nth by lia. reflexivity.
Qed.

Lemma linspace_first (num : nat) :
  (0 < num)%nat -> hd_error (linspace start stop num) = Some start.
Proof.
  intro H. destruct num as [|[|n]]; [lia|reflexivity|reflexivity || idtac].
  simpl. f_equal. lra.
Qed.

Lemma linspace_last (num : nat) :
  (2 <= num)%nat -> last (linspace start stop num) start = stop.
Proof.
  intro H. destruct num as [|[|n]]; try lia.
  change (linspace start stop (S (S n)))
    with (map (fun k => start + INR k * ((stop - start) / INR (S n)))
              (seq 0 (S n)) ++ [stop]).
  apply last_last.
Qed.

Lemma linspace_In (num : nat) (x : R) :
  In x (linspace start stop num) ->
  exists k, (k < num)%nat
            /\ x = start + INR k * ((stop - start) / INR (num - 1)).
Proof.
  intro Hx. apply In_nth_error in Hx. destruct Hx as [k Hk].
  assert (Hlt : (k < num)%nat).
  { rewrite <- (linspace_length num). apply nth_error_Some. congruence. }
  exists k. split; [exact Hlt|].
  rewrite (linspace_nth num k Hlt) in Hk. congruence.
Qed.

Lemma linspace_lower (num : nat) (x : R) :
  start <= stop -> In x (linspace start stop num) -> start <= x.
Proof.
  intros Hle Hx. destruct (linspace_In num x Hx) as [k [Hk ->]].
  assert (0 <= INR k) by apply pos_INR.
  assert (0 <= (stop - start) / INR (num - 1)).
  { destruct (Nat.eq_dec (num - 1) 0) as [->|Hn].
    - simpl. unfold Rdiv. rewrite Rinv_0. lra.
    - apply Rmult_le_pos; [lra|].
      apply Rlt_le, Rinv_0_lt_compat, lt_0_INR. lia. }
  nra.
Qed.

End Linspace.

(** ** [compute_parker_spiral_surface] *)

Section Surface.

Import parker_spiral.
Import spec_model.

Lemma pydiv_nonzero (a b : R) : b <> 0 -> pydiv a b = inr (a / b).
Proof.
  intro Hb. unfold pydiv. destruct (Req_dec_T b 0); [contradiction|].
  reflexivity.
Qed.

Lemma pydiv_zero (a : R) : pydiv a 0 = inl "ZeroDivisionError"%string.
Proof.
  unfold pydiv. destruct (Req_dec_T 0 0) as [_|H]; [reflexivity|].
  now contradiction H.
Qed.

Lemma AU_km_pos : 0 < AU_km.
Proof. unfold AU_km. lra. Qed.

Lemma v_sw_AU_day_zero (a : SpiralArgs) :
  v_sw_AU_day a = 0 <-> v_sw_km_s a = 0.
Proof.
  unfold v_sw_AU_day. pose proof AU_km_pos as HA. split; intro H.
  - apply (f_equal (fun t => t * AU_km)) in H.
    unfold Rdiv in H. rewrite Rmult_assoc, Rinv_l, Rmult_0_l in H by lra.
    lra.
  - rewrite H. unfold Rdiv. ring.
Qed.

Lemma v_sw_AU_day_pos (a : SpiralArgs) :
  0 < v_sw_km_s a -> 0 < v_sw_AU_day a.
Proof.
  intro H. unfold v_sw_AU_day. pose proof AU_km_pos.
  apply Rdiv_lt_0_compat; lra.
Qed.

(** Whenever neither Python division raises, the four arrays returned are
    the outer-product grids of the specification's cell formulas over the
    azimuth samples (rows) and the radius samples (columns). *)
Lemma compute_outer (a : SpiralArgs) :
  solar_rot_days a <> 0 -> v_sw_km_s a <> 0 ->
  let v := v_sw_AU_day a in
  compute_parker_spiral_surface a
  = inr (outer (fun phi r => point_x a v r phi) (phi_vals a) (r_vals a),
         outer (fun phi r => point_y a v r phi) (phi_vals a) (r_vals a),
         outer (fun phi r => point_z a r phi) (phi_vals a) (r_vals a),
         outer (fun phi r => field a v r (theta a phi))
               (phi_vals a) (r_vals a)).
Proof.
  intros Hrot Hv v.
  assert (Hv' : v_sw_AU_day a <> 0) by (now rewrite v_sw_AU_day_zero).
  unfold compute_parker_spiral_surface.
  rewrite (pydiv_nonzero _ _ Hrot). cbn [bind].
  rewrite (pydiv_nonzero _ _ Hv'). cbn [bind].
  rewrite meshgrid_outer.
  rewrite gmap_outer.
  repeat rewrite gmap2_outer.
  reflexivity.
Qed.

(** With a zero rotation period or a zero wind speed the first, respectively
    the second, Python division raises; otherwise a surface is returned. *)
Lemma compute_raises (a : SpiralArgs) :
  solar_rot_days a = 0 \/ v_sw_km_s a = 0 ->
  compute_parker_spiral_surface a = inl "ZeroDivisionError"%string.
Proof.
  intros H. unfold compute_parker_spiral_surface.
  destruct (Req_dec_T (solar_rot_days a) 0) as [Hr|Hr].
  - rewrite Hr, pydiv_zero. reflexivity.
  - destruct H as [H|H]; [contradiction|].
    rewrite (pydiv_nonzero _ _ Hr). cbn [bind].
    apply v_sw_AU_day_zero in H. rewrite H, pydiv_zero. reflexivity.
Qed.

Lemma valid_nonzero (a : SpiralArgs) :
  valid a -> solar_rot_days a <> 0 /\ v_sw_km_s a <> 0.
Proof. unfold valid. intros (_ & _ & Hr & Hv). split; lra. Qed.

Lemma defaults_valid : valid defaults.
Proof. unfold valid, defaults; simpl. repeat split; lra. Qed.

End Surface.


(** ** The surface: geometry, field, shape *)

Section SurfaceClaims.

Import parker_spiral.
Import spec_model.

(** The twist is anchored at the innermost radius. *)
Lemma twisted_r_min (a : SpiralArgs) (v phi : R) :
  twisted a v (r_min a) phi = phi.
Proof. unfold twisted. ring. Qed.

Lemma field_pos (a : SpiralArgs) (v r th : R) : 0 < r -> 0 < field a v r th.
Proof.
  intro Hr. unfold field, B0.
  assert (Hs : forall q c, 0 < sqrt (1 + q ^ 2 * c ^ 2)).
  { intros q c. apply sqrt_lt_R0.
    pose proof (pow2_ge_0 q). pose proof (pow2_ge_0 c). nra. }
  pose proof (Hs (omega a / v) (cos (tilt_radians a))) as H0.
  pose proof (Hs (omega a * r / v) (sin th)) as H1.
  assert (H2 : 0 < (1 / r) ^ 2).
  { assert (0 < 1 / r) by (apply Rdiv_lt_0_compat; lra). nra. }
  assert (H3 : 0 < 1 / sqrt (1 + (omega a / v) ^ 2
                                 * cos (tilt_radians a) ^ 2)).
  { apply Rdiv_lt_0_compat; lra. }
  apply Rmult_lt_0_compat; [apply Rmult_lt_0_compat|]; assumption.
Qed.

(** *** The winding rate of the code and that of the specification *)

(** The samples at the corners of the default grid. *)
Lemma defaults_samples :
  nth_error (phi_vals defaults) 0 = Some 0
  /\ nth_error (r_vals defaults) 0 = Some 0.1
  /\ nth_error (r_vals defaults) 99 = Some 1.5.
Proof.
  unfold phi_vals, r_vals. split; [|split].
  - rewrite (linspace_nth _ _ _ 0) by (simpl; lia). f_equal.
    simpl INR. ring.
  - rewrite (linspace_nth _ _ _ 0) by (simpl; lia). f_equal.
    simpl INR. simpl r_min. ring.
  - rewrite (linspace_nth _ _ _ 99) by (simpl; lia). f_equal.
    change (n_r defaults - 1)%nat with 99%nat.
    simpl r_min; simpl r_max.
    assert (H : INR 99 <> 0) by (apply not_0_INR; discriminate).
    field. exact H.
Qed.

(** At azimuth 0 the sine of the polar angle is the cosine of the tilt, which
    is positive for the default tilt of 10 degrees. *)
Lemma defaults_sin_theta :
  sin (theta defaults 0) = cos (tilt_radians defaults)
  /\ 0 < cos (tilt_radians defaults).
Proof.
  split.
  - unfold theta. replace (2 * 0) with 0 by ring. rewrite sin_0.
    replace (PI / 2 - tilt_radians defaults + amplitude_radians defaults * 0)
      with (PI / 2 - tilt_radians defaults) by ring.
    apply sin_shift.
  - unfold tilt_radians, radians. simpl tilt_deg.
    pose proof PI_RGT_0 as HP. apply cos_gt_0; lra.
Qed.

(** The two wind speeds, and the winding rates they give. *)
Lemma defaults_wind_speeds :
  0 < wind_speed_AU_per_day_of defaults
  /\ wind_speed_AU_per_day_of defaults < v_sw_AU_day defaults.
Proof.
  unfold wind_speed_AU_per_day_of, v_sw_AU_day, AU_km. simpl v_sw_km_s.
  split; lra.
Qed.

(** The twisted azimuth at the outer edge of the default grid, for a wind
    speed [v] in AU per day. *)
Lemma defaults_twist (v : R) :
  v <> 0 ->
  twisted defaults v 1.5 0 = PI * (2 / 25.4 * 1.4 / v).
Proof.
  intro Hv. unfold twisted, alpha, omega. simpl solar_rot_days.
  simpl r_min. replace (1.5 - 0.1) with 1.4 by lra. field.
  split; [lra|exact Hv].
Qed.

(** C5.  With the default parameters every cell of the three point arrays
    holds the point of the geometric model, for the wind speed in AU per
    day the code computes, [400 * 86400 / 1.4959787e8]; at [r = r_min] the
    twist vanishes, whatever the wind speed.  The specification converts
    with 149,597,870.7 km per AU: its winding rate is the code's divided by
    [149597870 / 149597870.7], and at the outer edge of the first row the
    [x] the code returns is not the [x] of the specification's model; on
    binary64 numbers too the two winding rates differ. *)
Theorem C5_surface_points :
  let v_code := v_sw_AU_day defaults in
  let v_spec := wind_speed_AU_per_day_of defaults in
  exists x y z B,
    compute_parker_spiral_surface defaults = inr (x, y, z, B)
    /\ (forall i j phi r,
           nth_error (phi_vals defaults) i = Some phi ->
           nth_error (r_vals defaults) j = Some r ->
           cell x i j = Some (point_x defaults v_code r phi)
           /\ cell y i j = Some (point_y defaults v_code r phi)
           /\ cell z i j = Some (point_z defaults r phi))
    /\ (forall v phi, twisted defaults v (r_min defaults) phi = phi)
    /\ (v_code = 400 * 86400 / 149597870
        /\ v_spec = 400 * 86400 / 149597870.7)
    /\ alpha defaults v_code
       = alpha defaults v_spec * (149597870 / 149597870.7)
    /\ cell x 0 99 = Some (point_x defaults v_code 1.5 0)
    /\ point_x defaults v_code 1.5 0 <> point_x defaults v_spec 1.5 0
    /\ PrimFloat.eqb (Binary64.alpha Binary64.defaults)
                     (Binary64.alpha_spec Binary64.defaults) = false.
Proof.
  intros v_code v_spec.
  assert (Hrot : solar_rot_days defaults <> 0) by (simpl; lra).
  assert (Hv : v_sw_km_s defaults <> 0) by (simpl; lra).
  destruct defaults_samples as (Hphi0 & Hr0 & Hr99).
  destruct defaults_wind_speeds as [Hs Hlt]. fold v_spec v_code in Hs, Hlt.
  do 4 eexists. split; [apply (compute_outer defaults Hrot Hv)|].
  split; [|split; [|split; [|split; [|split; [|split; [|reflexivity]]]]]].
  - intros i j phi r Hphi Hr.
    repeat split; now rewrite (cell_outer _ _ _ _ _ _ _ Hphi Hr).
  - intros v phi. apply twisted_r_min.
  - unfold v_code, v_spec, v_sw_AU_day, wind_speed_AU_per_day_of, AU_km.
    simpl v_sw_km_s. split; lra.
  - unfold alpha, omega, v_code, v_spec, v_sw_AU_day,
      wind_speed_AU_per_day_of, AU_km.
    simpl solar_rot_days. simpl v_sw_km_s.
    replace 1.4959787e8 with 149597870 by lra.
    replace 400.0 with 400 by lra.
    replace 149597870.7 with (1495978707 / 10) by lra.
    replace 25.4 with (254 / 10) by lra. field.
  - now rewrite (cell_outer _ _ _ _ _ _ _ Hphi0 Hr99).
  - unfold point_x. destruct defaults_sin_theta as [-> Hc].
    rewrite (defaults_twist v_code), (defaults_twist v_spec) by lra.
    pose proof PI_RGT_0 as HP.
    set (k1 := 2 / 25.4 * 1.4 / v_code). set (k2 := 2 / 25.4 * 1.4 / v_spec).
    assert (Hk : 0 < k1 /\ k1 < k2 /\ k2 < 1).
    { unfold k1, k2, v_code, v_spec, v_sw_AU_day, wind_speed_AU_per_day_of,
        AU_km. simpl v_sw_km_s. repeat split; lra. }
    destruct Hk as (Hk1 & Hk12 & Hk2).
    assert (Hcos : cos (PI * k2) < cos (PI * k1)).
    { apply cos_decreasing_1; nra. }
    intro Heq.
    assert (cos (PI * k1) = cos (PI * k2)); [|lra].
    apply (Rmult_eq_reg_l (1.5 * cos (tilt_radians defaults))); [|nra].
    lra.
Qed.

(** The field of a cell depends on the winding strength [u] through
    [sqrt (1 + q u) / sqrt (1 + u)], which takes no value twice when
    [q <> 1]. *)
Lemma field_ratio_injective (K q u1 u2 : R) :
  0 < K -> 0 <= q -> q <> 1 -> 0 <= u1 -> 0 <= u2 -> u1 <> u2 ->
  1 / sqrt (1 + u1) * K * sqrt (1 + q * u1)
  <> 1 / sqrt (1 + u2) * K * sqrt (1 + q * u2).
Proof.
  intros HK Hq0 Hq Hu1 Hu2 Hne Heq.
  assert (Hqu1 : 0 <= q * u1) by (apply Rmult_le_pos; assumption).
  assert (Hqu2 : 0 <= q * u2) by (apply Rmult_le_pos; assumption).
  set (P1 := sqrt (1 + u1)) in *. set (P2 := sqrt (1 + u2)) in *.
  set (Q1 := sqrt (1 + q * u1)) in *. set (Q2 := sqrt (1 + q * u2)) in *.
  assert (HP1 : 0 < P1) by (apply sqrt_lt_R0; lra).
  assert (HP2 : 0 < P2) by (apply sqrt_lt_R0; lra).
  assert (HQ1 : 0 < Q1) by (apply sqrt_lt_R0; lra).
  assert (HQ2 : 0 < Q2) by (apply sqrt_lt_R0; lra).
  assert (EP1 : P1 * P1 = 1 + u1) by (apply sqrt_sqrt; lra).
  assert (EP2 : P2 * P2 = 1 + u2) by (apply sqrt_sqrt; lra).
  assert (EQ1 : Q1 * Q1 = 1 + q * u1) by (apply sqrt_sqrt; lra).
  assert (EQ2 : Q2 * Q2 = 1 + q * u2) by (apply sqrt_sqrt; lra).
  assert (Hx : Q1 * P2 = Q2 * P1).
  { apply (Rmult_eq_reg_l K); [|lra].
    replace (K * (Q1 * P2)) with (1 / P1 * K * Q1 * (P1 * P2))
      by (field; lra).
    replace (K * (Q2 * P1)) with (1 / P2 * K * Q2 * (P1 * P2))
      by (field; lra).
    now rewrite Heq. }
  assert (Hsq : (Q1 * Q1) * (P2 * P2) = (Q2 * Q2) * (P1 * P1)).
  { replace (Q1 * Q1 * (P2 * P2)) with ((Q1 * P2) * (Q1 * P2)) by ring.
    rewrite Hx. ring. }
  rewrite EP1, EP2, EQ1, EQ2 in Hsq.
  assert (Hz : (1 - q) * (u1 - u2) = 0) by lra.
  apply Rmult_integral in Hz. destruct Hz; lra.
Qed.

(** C6.  With the default parameters every cell of the field array holds
    [B0 * (1/r)^2 * sqrt (1 + (omega r / v)^2 sin(theta)^2)] with
    [B0 = 1 / sqrt (1 + (omega / v)^2 cos(tilt)^2)] and
    [omega = 2 pi / 25.4], for the wind speed [v] in AU per day the code
    computes, [400 * 86400 / 1.4959787e8].  The specification converts with
    149,597,870.7 km per AU, and in the first cell the field the code
    returns is not the field of the specification's model. *)
Theorem C6_field_magnitude :
  let v_code := v_sw_AU_day defaults in
  let v_spec := wind_speed_AU_per_day_of defaults in
  exists x y z B,
    compute_parker_spiral_surface defaults = inr (x, y, z, B)
    /\ (forall i j phi r,
           nth_error (phi_vals defaults) i = Some phi ->
           nth_error (r_vals defaults) j = Some r ->
           cell B i j = Some (field defaults v_code r (theta defaults phi))
           /\ field defaults v_code r (theta defaults phi)
              = 1 / sqrt (1 + (2 * PI / 25.4 / v_code) ^ 2
                              * (cos (radians 10.0)) ^ 2)
                * (1 / r) ^ 2
                * sqrt (1 + (2 * PI / 25.4 * r / v_code) ^ 2
                            * (sin (theta defaults phi)) ^ 2))
    /\ (v_code = 400 * 86400 / 149597870
        /\ v_spec = 400 * 86400 / 149597870.7)
    /\ cell B 0 0 = Some (field defaults v_code 0.1 (theta defaults 0))
    /\ field defaults v_code 0.1 (theta defaults 0)
       <> field defaults v_spec 0.1 (theta defaults 0).
Proof.
  intros v_code v_spec.
  assert (Hrot : solar_rot_days defaults <> 0) by (simpl; lra).
  assert (Hv : v_sw_km_s defaults <> 0) by (simpl; lra).
  destruct defaults_samples as (Hphi0 & Hr0 & Hr99).
  destruct defaults_wind_speeds as [Hs Hlt]. fold v_spec v_code in Hs, Hlt.
  do 4 eexists. split; [apply (compute_outer defaults Hrot Hv)|].
  split; [|split; [|split]].
  - intros i j phi r Hphi Hr.
    split; [now rewrite (cell_outer _ _ _ _ _ _ _ Hphi Hr)|reflexivity].
  - unfold v_code, v_spec, v_sw_AU_day, wind_speed_AU_per_day_of, AU_km.
    simpl v_sw_km_s. split; lra.
  - now rewrite (cell_outer _ _ _ _ _ _ _ Hphi0 Hr0).
  - unfold field, B0. destruct defaults_sin_theta as [-> Hc].
    pose proof PI_RGT_0 as HP.
    set (c := cos (tilt_radians defaults)) in *.
    assert (Hom : 0 < omega defaults).
    { unfold omega. simpl solar_rot_days. apply Rdiv_lt_0_compat; lra. }
    set (om := omega defaults) in *.
    set (u1 := (om / v_code) ^ 2 * c ^ 2).
    set (u2 := (om / v_spec) ^ 2 * c ^ 2).
    replace ((om * 0.1 / v_code) ^ 2 * c ^ 2) with (0.01 * u1)
      by (unfold u1; replace 0.1 with (1 / 10) by lra;
          replace 0.01 with (1 / 100) by lra; field; lra).
    replace ((om * 0.1 / v_spec) ^ 2 * c ^ 2) with (0.01 * u2)
      by (unfold u2; replace 0.1 with (1 / 10) by lra;
          replace 0.01 with (1 / 100) by lra; field; lra).
    assert (Hw : 0 < om / v_code /\ om / v_code < om / v_spec).
    { split; [apply Rdiv_lt_0_compat; lra|].
      apply Rmult_lt_compat_l; [exact Hom|].
      apply Rinv_lt_contravar; [apply Rmult_lt_0_compat; lra|exact Hlt]. }
    assert (Hc2 : 0 < c ^ 2) by (apply pow_lt; exact Hc).
    destruct Hw as [Hw1 Hw2].
    assert (Hsq : (om / v_code) ^ 2 < (om / v_spec) ^ 2)
      by (simpl pow; nra).
    assert (Hsq0 : 0 < (om / v_code) ^ 2) by (apply pow_lt; exact Hw1).
    assert (Hu : 0 < u1 /\ u1 < u2).
    { unfold u1, u2. split; [now apply Rmult_lt_0_compat|].
      now apply Rmult_lt_compat_r. }
    apply field_ratio_injective; lra.
Qed.

(** *** The azimuthal seam *)

Lemma theta_period (a : SpiralArgs) (phi : R) :
  theta a (phi + 2 * PI) = theta a phi.
Proof.
  unfold theta. f_equal. f_equal.
  replace (2 * (phi + 2 * PI)) with (2 * phi + 2 * INR 2 * PI)
    by (simpl INR; ring).
  apply sin_period.
Qed.

Lemma twisted_shift (a : SpiralArgs) (v r phi : R) :
  twisted a v r (phi + 2 * PI) = twisted a v r phi + 2 * INR 1 * PI.
Proof. unfold twisted. simpl INR. ring. Qed.

Lemma point_x_period (a : SpiralArgs) (v r phi : R) :
  point_x a v r (phi + 2 * PI) = point_x a v r phi.
Proof.
  unfold point_x. now rewrite theta_period, twisted_shift, cos_period.
Qed.

Lemma point_y_period (a : SpiralArgs) (v r phi : R) :
  point_y a v r (phi + 2 * PI) = point_y a v r phi.
Proof.
  unfold point_y. now rewrite theta_period, twisted_shift, sin_period.
Qed.

Lemma point_z_period (a : SpiralArgs) (r phi : R) :
  point_z a r (phi + 2 * PI) = point_z a r phi.
Proof. unfold point_z. now rewrite theta_period. Qed.

Lemma outer_hd (f : R -> R -> R) (p0 : R) (l rs : list R) :
  hd [] (outer f (p0 :: l) rs) = map (f p0) rs.
Proof. reflexivity. Qed.

Lemma outer_last (f : R -> R -> R) (l : list R) (pn : R) (rs : list R) :
  last (outer f (l ++ [pn]) rs) [] = map (f pn) rs.
Proof. unfold outer. rewrite map_app. apply last_last. Qed.

(** The azimuth samples start at [0] and, from two samples on, end at
    [2 pi]. *)
Lemma phi_vals_ends (a : SpiralArgs) :
  (2 <= n_phi a)%nat ->
  exists l, phi_vals a = (0 :: l) ++ [2 * PI].
Proof.
  intro H. unfold phi_vals. destruct (n_phi a) as [|[|n]]; try lia.
  exists (map (fun k => 0 + INR k * ((2 * PI - 0) / INR (S n))) (seq 1 n)).
  change (linspace 0 (2 * PI) (S (S n)))
    with (map (fun k => 0 + INR k * ((2 * PI - 0) / INR (S n)))
              (seq 0 (S n)) ++ [2 * PI]).
  change (seq 0 (S n)) with (0%nat :: seq 1 n).
  rewrite map_cons. f_equal. f_equal. simpl INR. ring.
Qed.

Lemma seam_rows (f : R -> R -> R) (a : SpiralArgs) :
  (forall r, f (2 * PI) r = f 0 r) ->
  hd [] (outer f (phi_vals a) (r_vals a))
  = last (outer f (phi_vals a) (r_vals a)) [].
Proof.
  intro Hper.
  destruct (Nat.le_gt_cases 2 (n_phi a)) as [H2|H2].
  - destruct (phi_vals_ends a H2) as [l ->].
    rewrite outer_last. simpl app. rewrite outer_hd.
    apply map_ext. intro r. now rewrite Hper.
  - unfold phi_vals. destruct (n_phi a) as [|[|n]]; try lia; reflexivity.
Qed.

(** C9. For valid parameters the surface closes at the azimuthal seam: in
    each of the x, y and z arrays the first row and the last row are equal
    cell by cell; from two azimuth samples on these are the rows of
    [phi = 0] and of [phi = 2 pi]. *)
Theorem C9_seam_closed (a : SpiralArgs) (Hvalid : valid a) :
  exists x y z B,
    compute_parker_spiral_surface a = inr (x, y, z, B)
    /\ (hd [] x = last x [] /\ hd [] y = last y [] /\ hd [] z = last z [])
    /\ ((2 <= n_phi a)%nat ->
          let v := v_sw_AU_day a in
          (hd [] x = map (fun r => point_x a v r 0) (r_vals a)
           /\ last x [] = map (fun r => point_x a v r (2 * PI)) (r_vals a))
          /\ (hd [] y = map (fun r => point_y a v r 0) (r_vals a)
              /\ last y [] = map (fun r => point_y a v r (2 * PI)) (r_vals a))
          /\ (hd [] z = map (fun r => point_z a r 0) (r_vals a)
              /\ last z [] = map (fun r => point_z a r (2 * PI)) (r_vals a))).
Proof.
  destruct (valid_nonzero a Hvalid) as [Hrot Hv].
  do 4 eexists. split; [apply (compute_outer a Hrot Hv)|].
  split.
  - repeat split; apply seam_rows; intro r.
    + rewrite <- (point_x_period a _ r 0). f_equal. ring.
    + rewrite <- (point_y_period a _ r 0). f_equal. ring.
    + rewrite <- (point_z_period a r 0). f_equal. ring.
  - intros H2 v. destruct (phi_vals_ends a H2) as [l ->].
    repeat rewrite outer_last. simpl app. repeat rewrite outer_hd.
    repeat split; reflexivity.
Qed.

Lemma C9_seam_closed_witness :
  exists x y z B,
    compute_parker_spiral_surface defaults = inr (x, y, z, B)
    /\ hd [] x = last x [].
Proof.
  assert (Hvalid : valid defaults).
  { unfold valid, defaults; simpl. repeat split; lra. }
  destruct (C9_seam_closed defaults Hvalid)
    as (x & y & z & B & Hc & (Hx & _) & _).
  exists x, y, z, B. split; [exact Hc|exact Hx].
Defined.

End SurfaceClaims.

(** ** The km -> AU conversion and the Earth offset *)

Section Conversion.

Lemma vec3_eq (a b c a' b' c' : R) :
  a = a' -> b = b' -> c = c' -> (a, b, c) = (a', b', c').
Proof. now intros -> -> ->. Qed.

(** In [main] the conversion comes first and the offset second, whatever
    the position. *)
Lemma main_conversion_then_offset (m0 m1 m2 : R) :
  parker_spiral.mms_heliocentric (m0, m1, m2)
  = (1.0 + m0 / 1.4959787e8, 0.0 + m1 / 1.4959787e8,
     0.0 + m2 / 1.4959787e8).
Proof. reflexivity. Qed.

Lemma plot_conversion_then_offset (m0 m1 m2 : R) :
  psp_plus_mms.mms_heliocentric (m0, m1, m2)
  = (1.0 + m0 / 149597870.7, 0.0 + m1 / 149597870.7,
     0.0 + m2 / 149597870.7).
Proof. reflexivity. Qed.

(** C1, evaluated.  [plot_spacecraft_positions] of [psp_plus_mms.py] takes
    the geocentric position [(149597870.7, 0, 0)] km to [(2, 0, 0)] AU;
    [main] of [psp_plus_mms_plus_parker_spiral.py], which divides by
    [1.4959787e8], takes it to [(2 + 7/1495978700, 0, 0)] instead, on the
    reals as on binary64 numbers. *)
Theorem C1_one_AU_along_x :
  psp_plus_mms.mms_heliocentric (149597870.7, 0, 0) = (2.0, 0.0, 0.0)
  /\ parker_spiral.mms_heliocentric (149597870.7, 0, 0)
     = (2 + 7 / 1495978700, 0, 0)
  /\ parker_spiral.mms_heliocentric (149597870.7, 0, 0) <> (2.0, 0.0, 0.0)
  /\ Binary64.plot_mms_heliocentric
       (Binary64.lit_149597870_7, 0%float, 0%float)
     = (2%float, 0%float, 0%float)
  /\ Binary64.eqb3
       (Binary64.main_mms_heliocentric
          (Binary64.lit_149597870_7, 0%float, 0%float))
       (2%float, 0%float, 0%float)
     = false.
Proof.
  split; [|split; [|split; [|split]]].
  - rewrite plot_conversion_then_offset. apply vec3_eq; lra.
  - rewrite main_conversion_then_offset. apply vec3_eq; lra.
  - rewrite main_conversion_then_offset. intro H. injection H as H0 _ _. lra.
  - reflexivity.
  - reflexivity.
Qed.

(** C2, evaluated.  The surface model and both position conversions of
    [psp_plus_mms_plus_parker_spiral.py] divide by [149597870], not by
    [149597870.7] as [psp_plus_mms.py] and [calculate_parker_spiral] have it:
    the default wind speed becomes [400 * 86400 / 149597870] AU per day, and
    a displacement of [149597870.7] km is not converted to 1 AU. *)
Theorem C2_km_per_AU_sites :
  parker_spiral.AU_km = 149597870
  /\ parker_spiral.AU_km <> 149597870.7
  /\ parker_spiral.v_sw_AU_day parker_spiral.defaults
     = 400 * 86400 / 149597870
  /\ parker_spiral.v_sw_AU_day parker_spiral.defaults
     <> 400 * 86400 / 149597870.7
  /\ parker_spiral.mms_pos_au (149597870.7, 0, 0) <> (1, 0, 0)
  /\ parker_spiral.mms_helio (149597870.7, 0, 0) <> (2.0, 0, 0)
  /\ parker_spiral.mms_pos_au_rel (149597870.7, 0, 0) <> (1, 0, 0)
  /\ psp_plus_mms.AU_km = 149597870.7
  /\ parker_spiral.calculate_parker_spiral_km_per_AU = 149597870.7.
Proof.
  unfold parker_spiral.v_sw_AU_day, parker_spiral.mms_helio,
    parker_spiral.mms_pos_au, parker_spiral.mms_pos_au_rel,
    parker_spiral.AU_km, psp_plus_mms.AU_km,
    parker_spiral.calculate_parker_spiral_km_per_AU.
  simpl.
  repeat split; try lra; intro H; injection H as H0 _ _; lra.
Qed.

(** C4, evaluated.  [main] converts before it shifts, for every position;
    yet, dividing by [1.4959787e8], it takes [(149597870.7, 149597870.7, 0)]
    km to [(2 + 7/1495978700, 1 + 7/1495978700, 0)] AU: neither
    [(2, 1, 0)] nor the offset-first value
    [(1 + 149597870.7, 149597870.7, 0)]. *)
Theorem C4_conversion_before_offset :
  (forall m0 m1 m2 : R,
      parker_spiral.mms_heliocentric (m0, m1, m2)
      = (m0 / parker_spiral.AU_km + 1, m1 / parker_spiral.AU_km + 0,
         m2 / parker_spiral.AU_km + 0))
  /\ parker_spiral.mms_heliocentric (149597870.7, 149597870.7, 0)
     = (2 + 7 / 1495978700, 1 + 7 / 1495978700, 0)
  /\ parker_spiral.mms_heliocentric (149597870.7, 149597870.7, 0)
     <> (2.0, 1.0, 0.0)
  /\ parker_spiral.mms_heliocentric (149597870.7, 149597870.7, 0)
     <> (1.0 + 149597870.7, 149597870.7, 0)
  /\ Binary64.eqb3
       (Binary64.main_mms_heliocentric
          (Binary64.lit_149597870_7, Binary64.lit_149597870_7, 0%float))
       (2%float, 1%float, 0%float)
     = false
  /\ Binary64.plot_mms_heliocentric
       (Binary64.lit_149597870_7, Binary64.lit_149597870_7, 0%float)
     = (2%float, 1%float, 0%float).
Proof.
  split; [|split; [|split; [|split; [|split]]]].
  - intros m0 m1 m2. rewrite main_conversion_then_offset.
    unfold parker_spiral.AU_km. apply vec3_eq; lra.
  - rewrite main_conversion_then_offset. apply vec3_eq; lra.
  - rewrite main_conversion_then_offset. intro H. injection H as H0 _ _. lra.
  - rewrite main_conversion_then_offset. intro H. injection H as H0 _ _. lra.
  - reflexivity.
  - reflexivity.
Qed.

End Conversion.

(** ** [get_input] *)

Section GetInputClaims.

Import parker_spiral.
Import terminal.
Import parker_spiral_more.

Lemma lstrip_nil_iff (s : pystr) :
  lstrip s = [] <-> forallb isspace s = true.
Proof.
  induction s as [|c s IH]; simpl.
  - now split.
  - destruct (isspace c); simpl.
    + exact IH.
    + split; discriminate.
Qed.

Lemma lstrip_head (s : pystr) :
  match lstrip s with
  | [] => True
  | c :: _ => isspace c = false
  end.
Proof.
  induction s as [|c s IH]; simpl; [exact I|].
  destruct (isspace c) eqn:E; [exact IH|exact E].
Qed.

Lemma forallb_rev {A : Type} (f : A -> bool) (l : list A) :
  forallb f (rev l) = forallb f l.
Proof.
  induction l as [|x l IH]; simpl; [reflexivity|].
  rewrite forallb_app, IH. simpl. rewrite andb_true_r. apply andb_comm.
Qed.

(** [strip] leaves nothing exactly when every character is whitespace. *)
Lemma strip_nil_iff (s : pystr) :
  strip s = [] <-> forallb isspace s = true.
Proof.
  unfold strip, rstrip. split; intro H.
  - apply (f_equal (@rev N)) in H. rewrite rev_involutive in H. simpl in H.
    apply lstrip_nil_iff in H. rewrite forallb_rev in H.
    pose proof (lstrip_head s) as Hh.
    destruct (lstrip s) as [|c t] eqn:E.
    + now apply lstrip_nil_iff.
    + simpl in H. rewrite Hh in H. discriminate.
  - apply lstrip_nil_iff in H. now rewrite H.
Qed.

Lemma is_empty_strip (s : pystr) :
  is_empty (strip s) = forallb isspace s.
Proof.
  destruct (forallb isspace s) eqn:E.
  - apply strip_nil_iff in E. now rewrite E.
  - destruct (strip s) eqn:Es; [|reflexivity].
    apply strip_nil_iff in Es. congruence.
Qed.

Example strip_spaces :
  strip (of_string "  4 2 ") = of_string "4 2".
Proof. reflexivity. Qed.

Example strip_tab_only :
  strip [9; 32; 160; 8195]%N = [] /\ strip [] = [].
Proof. split; reflexivity. Qed.

Variable V : Type.
Variable float_of_str : pystr -> option V.
Variable fmt : V -> pystr.

(** C10, as the code has it.  [get_input] raises exactly what its call of
    [input] raises, which is not inside the [try] statement: whatever
    [input] does, the exception and the terminal are those [input] leaves.
    Once [input] has returned a line, [get_input] returns a value and
    raises nothing: the default when the line is empty or all whitespace;
    the default, after the warning is printed, when [float] rejects the
    line; the value [float] gives in every other case. *)
Theorem C10_get_input_outcomes (input : pystr -> IO pystr)
        (prompt : pystr) (default : V) (c : Console) :
  let call := get_input V float_of_str fmt input prompt default c in
  match input (prompt_text V fmt prompt default) c with
  | (inl e, c') => call = (inl e, c')
  | (inr user_input, c') =>
      (exists v c'', call = (inr v, c''))
      /\ (forallb isspace user_input = true -> call = (inr default, c'))
      /\ (forallb isspace user_input = false ->
          float_of_str user_input = None ->
          call = (inr default, write (warning_text V fmt default) c'))
      /\ (forallb isspace user_input = false ->
          forall v, float_of_str user_input = Some v -> call = (inr v, c'))
  end.
Proof.
  unfold get_input, io_bind, io_ret, print.
  destruct (input (prompt_text V fmt prompt default) c)
    as [[e|user_input] c']; cbv zeta; [reflexivity|].
  rewrite is_empty_strip.
  destruct (forallb isspace user_input) eqn:Ews.
  - split; [now exists default, c'|]. split; [reflexivity|].
    split; intro H; discriminate H.
  - destruct (float_of_str user_input) as [v|] eqn:Ef.
    + split; [now exists v, c'|]. split; [intro H; discriminate H|].
      split; [intros _ H; discriminate H|].
      intros _ v0 Hv0. injection Hv0 as <-. reflexivity.
    + split; [eexists; eexists; reflexivity|].
      split; [intro H; discriminate H|].
      split; [reflexivity|]. intros _ v0 Hv0. discriminate Hv0.
Qed.

End GetInputClaims.

Section GetInputExamples.

Import parker_spiral.
Import terminal.
Import parker_spiral_more.

(** The claim fails at the end of input: the call of [input] raises
    [EOFError], and so does [get_input]. *)
Lemma C10_end_of_input_raises :
  fst (get_input R (fun _ => None) (fun _ => []) input
                 (of_string "Tilt angle (deg)") 10.0
                 {| stdin := []; stdout := [] |})
  = inl "EOFError"%string.
Proof. reflexivity. Qed.

End GetInputExamples.

(** ** [calculate_parker_spiral] *)

Section Ripple.

Import parker_spiral_more.

(** The three arrays are outer-product grids over the angle samples (rows)
    and the radius samples (columns). *)
Lemma calculate_outer (r_range theta_range : list R) (omega v_sw : R) :
  calculate_parker_spiral r_range theta_range omega v_sw
  = (outer (fun th r => r * cos th) theta_range r_range,
     outer (fun th r => r * sin th) theta_range r_range,
     outer (fun _ r =>
              0.05 * sin (4 * (- omega * (r * 149597870.7) / v_sw))
              * exp (- 2 * r))
           theta_range r_range).
Proof.
  unfold calculate_parker_spiral. rewrite meshgrid_outer.
  repeat rewrite gmap_outer. repeat rewrite gmap2_outer. reflexivity.
Qed.

(** X1. The three arrays have one row per angle and one column per radius,
    and the point of every cell lies, seen from above, on the circle of its
    radius sample: [x = r cos theta], [y = r sin theta], so
    [x^2 + y^2 = r^2], whatever [omega] and [v_sw]. *)
Theorem ripple_on_circles (r_range theta_range : list R) (omega v_sw : R) :
  exists x y z,
    calculate_parker_spiral r_range theta_range omega v_sw = (x, y, z)
    /\ (has_shape x (length theta_range) (length r_range)
        /\ has_shape y (length theta_range) (length r_range)
        /\ has_shape z (length theta_range) (length r_range))
    /\ forall i j th r,
         nth_error theta_range i = Some th ->
         nth_error r_range j = Some r ->
         exists cx cy,
           cell x i j = Some cx /\ cell y i j = Some cy
           /\ cx = r * cos th /\ cy = r * sin th
           /\ cx * cx + cy * cy = r * r.
Proof.
  do 3 eexists. split; [apply calculate_outer|]. split.
  - repeat split; apply has_shape_outer.
  - intros i j th r Hth Hr. do 2 eexists.
    rewrite (cell_outer _ _ _ _ _ _ _ Hth Hr).
    rewrite (cell_outer _ _ _ _ _ _ _ Hth Hr).
    repeat split.
    pose proof (sin2_cos2 th) as H. unfold Rsqr in H. nra.
Qed.

Lemma ripple_bound (omega v_sw r : R) :
  Rabs (0.05 * sin (4 * (- omega * (r * 149597870.7) / v_sw))
        * exp (- 2 * r))
  <= 0.05 * exp (- 2 * r).
Proof.
  set (s := sin (4 * (- omega * (r * 149597870.7) / v_sw))).
  assert (Hs : Rabs s <= 1).
  { apply Rabs_le. destruct (SIN_bound (4 * (- omega * (r * 149597870.7) / v_sw))).
    fold s in H, H0. split; lra. }
  pose proof (exp_pos (- 2 * r)) as He.
  rewrite Rmult_assoc, Rabs_mult, Rabs_mult.
  rewrite (Rabs_pos_eq 0.05) by lra.
  rewrite (Rabs_pos_eq (exp (- 2 * r))) by lra.
  nra.
Qed.

(** X2. With a non-zero wind speed, the height of every cell stays within
    the decaying envelope: [|z| <= 0.05 exp (-2 r)], hence [|z| <= 0.05] at
    every radius [r >= 0]. *)
Theorem ripple_envelope (r_range theta_range : list R) (omega v_sw : R)
        (Hv : v_sw <> 0) :
  exists x y z,
    calculate_parker_spiral r_range theta_range omega v_sw = (x, y, z)
    /\ forall i j th r,
         nth_error theta_range i = Some th ->
         nth_error r_range j = Some r ->
         exists cz,
           cell z i j = Some cz
           /\ Rabs cz <= 0.05 * exp (- 2 * r)
           /\ (0 <= r -> Rabs cz <= 0.05).
Proof.
  do 3 eexists. split; [apply calculate_outer|].
  intros i j th r Hth Hr. eexists.
  rewrite (cell_outer _ _ _ _ _ _ _ Hth Hr).
  split; [reflexivity|]. split; [apply ripple_bound|].
  intro H0. eapply Rle_trans; [apply ripple_bound|].
  assert (exp (- 2 * r) <= 1).
  { rewrite <- exp_0. destruct (Req_dec r 0) as [->|Hne].
    - right. f_equal. ring.
    - left. apply exp_increasing. lra. }
  lra.
Qed.

Lemma ripple_envelope_witness :
  exists x y z,
    calculate_parker_spiral [0; 1] [0] 2.7e-6 400 = (x, y, z)
    /\ exists cz, cell z 0 1 = Some cz /\ Rabs cz <= 0.05.
Proof.
  assert (Hv : 400 <> 0) by lra.
  destruct (ripple_envelope [0; 1] [0] 2.7e-6 400 Hv) as (x & y & z & E & H).
  exists x, y, z. split; [exact E|].
  destruct (H 0%nat 1%nat 0 1 eq_refl eq_refl) as (cz & Hc & _ & Hb).
  exists cz. split; [exact Hc|]. apply Hb. lra.
Defined.

(** X3. With a non-zero wind speed, the height does not depend on the
    angle: every row of [z] is the same list, one entry per radius, and a
    radius of zero gives the height zero. *)
Theorem ripple_rows_equal (r_range theta_range : list R) (omega v_sw : R)
        (Hv : v_sw <> 0) :
  exists x y z profile,
    calculate_parker_spiral r_range theta_range omega v_sw = (x, y, z)
    /\ length profile = length r_range
    /\ z = map (fun _ => profile) theta_range
    /\ (forall row, In row z -> row = profile)
    /\ (forall j, nth_error r_range j = Some 0 ->
                  nth_error profile j = Some 0).
Proof.
  do 3 eexists.
  exists (map (fun r =>
                 0.05 * sin (4 * (- omega * (r * 149597870.7) / v_sw))
                 * exp (- 2 * r)) r_range).
  split; [apply calculate_outer|]. split; [apply length_map|].
  split; [reflexivity|]. split.
  - intros row Hrow. unfold outer in Hrow. apply in_map_iff in Hrow.
    now destruct Hrow as [_ [<- _]].
  - intros j Hj. rewrite nth_error_map, Hj. simpl. f_equal.
    replace (4 * (- omega * (0 * 149597870.7) / v_sw)) with 0
      by (field; exact Hv).
    rewrite sin_0. ring.
Qed.

Lemma ripple_rows_equal_witness :
  exists x y z profile,
    calculate_parker_spiral [0; 1] [0; 1; 2] 2.7e-6 400 = (x, y, z)
    /\ z = [profile; profile; profile]
    /\ nth_error profile 0 = Some 0.
Proof.
  assert (Hv : 400 <> 0) by lra.
  destruct (ripple_rows_equal [0; 1] [0; 1; 2] 2.7e-6 400 Hv)
    as (x & y & z & profile & E & _ & Hz & _ & H0).
  exists x, y, z, profile. split; [exact E|]. split; [exact Hz|].
  apply H0. reflexivity.
Defined.

End Ripple.

(** ** The surface for the arguments [main] can pass *)

Section SurfaceMore.

Import parker_spiral.
Import parker_spiral_more.
Import spec_model.

(** Every sample of [np.linspace] lies between the two end values, in
    whichever order they are given. *)
Lemma linspace_between (start stop : R) (num : nat) (x : R) :
  In x (linspace start stop num) ->
  Rmin start stop <= x <= Rmax start stop.
Proof.
  intro Hx. destruct (linspace_In start stop num x Hx) as [k [Hk ->]].
  assert (Hmin : Rmin start stop <= start /\ Rmin start stop <= stop)
    by (split; [apply Rmin_l|apply Rmin_r]).
  assert (Hmax : start <= Rmax start stop /\ stop <= Rmax start stop)
    by (split; [apply Rmax_l|apply Rmax_r]).
  destruct (Nat.eq_dec (num - 1) 0) as [E|E].
  - rewrite E. simpl INR. unfold Rdiv. rewrite Rinv_0. lra.
  - assert (Hn : 0 < INR (num - 1)) by (apply lt_0_INR; lia).
    assert (Hk0 : 0 <= INR k) by apply pos_INR.
    assert (Hkn : INR k <= INR (num - 1)) by (apply le_INR; lia).
    set (t := INR k / INR (num - 1)).
    assert (Ht : 0 <= t <= 1).
    { unfold t. split.
      - apply Rmult_le_pos; [lra|]. now apply Rlt_le, Rinv_0_lt_compat.
      - apply (Rmult_le_reg_r (INR (num - 1))); [exact Hn|].
        unfold Rdiv. rewrite Rmult_assoc, Rinv_l by lra. lra. }
    replace (start + INR k * ((stop - start) / INR (num - 1)))
      with (start + t * (stop - start)) by (unfold t; field; lra).
    split; nra.
Qed.

Lemma point_norm (a : SpiralArgs) (v r phi : R) :
  point_x a v r phi * point_x a v r phi
  + point_y a v r phi * point_y a v r phi
  + point_z a r phi * point_z a r phi
  = r * r.
Proof.
  unfold point_x, point_y, point_z.
  pose proof (sin2_cos2 (theta a phi)) as Ht.
  pose proof (sin2_cos2 (twisted a v r phi)) as Hp.
  unfold Rsqr in Ht, Hp.
  set (st := sin (theta a phi)) in *. set (ct := cos (theta a phi)) in *.
  set (sp := sin (twisted a v r phi)) in *.
  set (cp := cos (twisted a v r phi)) in *.
  replace (r * st * cp * (r * st * cp) + r * st * sp * (r * st * sp)
           + r * ct * (r * ct))
    with (r * r * (st * st * (sp * sp + cp * cp) + ct * ct)) by ring.
  rewrite Hp. replace (st * st * 1 + ct * ct) with (st * st + ct * ct) by ring.
  rewrite Ht. ring.
Qed.

Lemma moderate_nonzero (a : SpiralArgs) :
  moderate a -> solar_rot_days a <> 0 /\ v_sw_km_s a <> 0.
Proof.
  intros ((Hr & _) & (Hv & _) & _).
  split; intro E; rewrite E, Rabs_R0 in *; lra.
Qed.

(** X4. In exact real arithmetic, for arguments of moderate magnitude, the
    point of every cell lies on the sphere of its radius sample,
    [x^2 + y^2 + z^2 = r^2]: tilt, undulation and twist only move it on that
    sphere; and the radius sample lies between [r_min] and [r_max], in
    whichever order they were given. *)
Theorem surface_on_spheres (a : SpiralArgs) (Hmod : moderate a) :
  exists x y z B,
    compute_parker_spiral_surface a = inr (x, y, z, B)
    /\ forall i j, (i < n_phi a)%nat -> (j < n_r a)%nat ->
         exists r cx cy cz,
           nth_error (r_vals a) j = Some r
           /\ cell x i j = Some cx /\ cell y i j = Some cy
           /\ cell z i j = Some cz
           /\ cx * cx + cy * cy + cz * cz = r * r
           /\ Rmin (r_min a) (r_max a) <= r <= Rmax (r_min a) (r_max a).
Proof.
  destruct (moderate_nonzero a Hmod) as [Hrot Hv].
  do 4 eexists. split; [apply (compute_outer a Hrot Hv)|].
  intros i j Hi Hj.
  pose proof (linspace_nth 0 (2 * PI) _ i Hi) as Hphi.
  pose proof (linspace_nth (r_min a) (r_max a) _ j Hj) as Hr.
  fold (phi_vals a) in Hphi. fold (r_vals a) in Hr.
  do 4 eexists. split; [exact Hr|].
  repeat rewrite (cell_outer _ _ _ _ _ _ _ Hphi Hr).
  split; [reflexivity|]. split; [reflexivity|]. split; [reflexivity|].
  split; [apply point_norm|].
  apply (linspace_between _ _ (n_r a)). eapply nth_error_In. exact Hr.
Qed.

Lemma swapped_radii_moderate : moderate swapped_radii.
Proof.
  unfold moderate. simpl. rewrite !Rabs_pos_eq by lra. lra.
Qed.

Lemma defaults_moderate : moderate defaults.
Proof.
  unfold moderate. simpl. rewrite !Rabs_pos_eq by lra. lra.
Qed.

Lemma surface_on_spheres_witness :
  exists x y z B,
    compute_parker_spiral_surface swapped_radii = inr (x, y, z, B)
    /\ exists r cx cy cz,
         cell x 3 7 = Some cx /\ cell y 3 7 = Some cy /\ cell z 3 7 = Some cz
         /\ cx * cx + cy * cy + cz * cz = r * r /\ 0.1 <= r <= 1.5.
Proof.
  destruct (surface_on_spheres swapped_radii swapped_radii_moderate)
    as (x & y & z & B & E & H).
  exists x, y, z, B. split; [exact E|].
  destruct (H 3%nat 7%nat) as (r & cx & cy & cz & _ & Hx & Hy & Hz & Hn & Hb);
    [simpl; lia|simpl; lia|].
  exists r, cx, cy, cz. repeat split; try assumption.
  - destruct Hb as [Hb _]. simpl in Hb.
    unfold Rmin in Hb. destruct (Rle_dec 1.5 0.1); lra.
  - destruct Hb as [_ Hb]. simpl in Hb.
    unfold Rmax in Hb. destruct (Rle_dec 1.5 0.1); lra.
Defined.

Lemma r_vals_pos (a : SpiralArgs) :
  0 < r_min a -> 0 < r_max a -> forall r, In r (r_vals a) -> 0 < r.
Proof.
  intros Hmin Hmax r Hr. apply linspace_between in Hr. destruct Hr as [Hr _].
  unfold Rmin in Hr. destruct (Rle_dec (r_min a) (r_max a)); lra.
Qed.

(** X5. In exact real arithmetic, for arguments of moderate magnitude with
    both radii at least [1e-30], the field is strictly positive in every
    cell: neither [r_min < r_max] nor the sign of the rotation period or of
    the wind speed matters. *)
Theorem field_positive_any_order (a : SpiralArgs) (Hmod : moderate a)
        (Hmin : 1e-30 <= r_min a) (Hmax : 1e-30 <= r_max a) :
  exists x y z B,
    compute_parker_spiral_surface a = inr (x, y, z, B)
    /\ (forall row b, In row B -> In b row -> 0 < b)
    /\ (forall i j, (i < n_phi a)%nat -> (j < n_r a)%nat ->
           exists b, cell B i j = Some b /\ 0 < b).
Proof.
  destruct (moderate_nonzero a Hmod) as [Hrot Hv].
  assert (Hmin0 : 0 < r_min a) by lra.
  assert (Hmax0 : 0 < r_max a) by lra.
  pose proof (r_vals_pos a Hmin0 Hmax0) as Hrad.
  do 4 eexists. split; [apply (compute_outer a Hrot Hv)|]. split.
  - intros row b Hrow Hb.
    destruct (outer_In _ _ _ _ _ Hrow Hb) as (phi & r & _ & Hr & ->).
    apply field_pos. now apply Hrad.
  - intros i j Hi Hj.
    pose proof (linspace_nth 0 (2 * PI) _ i Hi) as Hphi.
    pose proof (linspace_nth (r_min a) (r_max a) _ j Hj) as Hr.
    fold (phi_vals a) in Hphi. fold (r_vals a) in Hr.
    eexists. split; [apply (cell_outer _ _ _ _ _ _ _ Hphi Hr)|].
    apply field_pos. apply Hrad. eapply nth_error_In. exact Hr.
Qed.

Lemma field_positive_any_order_witness :
  exists x y z B,
    compute_parker_spiral_surface swapped_radii = inr (x, y, z, B)
    /\ exists b, cell B 99 99 = Some b /\ 0 < b.
Proof.
  assert (Hmin : 1e-30 <= r_min swapped_radii) by (simpl; lra).
  assert (Hmax : 1e-30 <= r_max swapped_radii) by (simpl; lra).
  destruct (field_positive_any_order swapped_radii swapped_radii_moderate
                                     Hmin Hmax)
    as (x & y & z & B & E & _ & H).
  exists x, y, z, B. split; [exact E|]. apply H; simpl; lia.
Defined.

(** *** The arguments of [LogNorm] *)

Lemma fold_Rmin_spec (cs : list R) (c : R) :
  In (fold_left Rmin cs c) (c :: cs)
  /\ forall d, In d (c :: cs) -> fold_left Rmin cs c <= d.
Proof.
  revert c. induction cs as [|a cs IH]; intro c; simpl.
  - split; [now left|]. intros d [<-|[]]. lra.
  - destruct (IH (Rmin c a)) as [Hin Hle]. split.
    + destruct Hin as [Hin|Hin]; [|right; right; exact Hin].
      destruct (Rle_dec c a) as [H|H].
      * rewrite (Rmin_left c a H) in Hin |- *. left; exact Hin.
      * rewrite (Rmin_right c a) in Hin |- * by lra. right; left; exact Hin.
    + intros d Hd.
      assert (Hm : fold_left Rmin cs (Rmin c a) <= Rmin c a)
        by (apply Hle; now left).
      destruct Hd as [<-|[<-|Hd]].
      * pose proof (Rmin_l c a). lra.
      * pose proof (Rmin_r c a). lra.
      * apply Hle. now right.
Qed.

Lemma fold_Rmax_spec (cs : list R) (c : R) :
  In (fold_left Rmax cs c) (c :: cs)
  /\ forall d, In d (c :: cs) -> d <= fold_left Rmax cs c.
Proof.
  revert c. induction cs as [|a cs IH]; intro c; simpl.
  - split; [now left|]. intros d [<-|[]]. lra.
  - destruct (IH (Rmax c a)) as [Hin Hle]. split.
    + destruct Hin as [Hin|Hin]; [|right; right; exact Hin].
      destruct (Rle_dec c a) as [H|H].
      * rewrite (Rmax_right c a H) in Hin |- *. right; left; exact Hin.
      * rewrite (Rmax_left c a) in Hin |- * by lra. left; exact Hin.
    + intros d Hd.
      assert (Hm : Rmax c a <= fold_left Rmax cs (Rmax c a))
        by (apply Hle; now left).
      destruct Hd as [<-|[<-|Hd]].
      * pose proof (Rmax_l c a). lra.
      * pose proof (Rmax_r c a). lra.
      * apply Hle. now right.
Qed.

(** [vmin] and [vmax] are cells of the array, the least and the greatest;
    an array without a cell makes the call raise. *)
Lemma lognorm_args_spec (B : Grid) :
  match lognorm_args B with
  | inl e => concat B = [] /\ e = "ValueError"%string
  | inr (vmin, vmax) =>
      In vmin (concat B) /\ In vmax (concat B)
      /\ forall b, In b (concat B) -> vmin <= b <= vmax
  end.
Proof.
  unfold lognorm_args, np_min, np_max.
  destruct (concat B) as [|c cs]; cbn [bind raise ret].
  - now split.
  - destruct (fold_Rmin_spec cs c) as [Hi Hl].
    destruct (fold_Rmax_spec cs c) as [Hi' Hl'].
    split; [exact Hi|]. split; [exact Hi'|].
    intros b Hb. split; [now apply Hl|now apply Hl'].
Qed.

Lemma concat_outer_nonempty (f : R -> R -> R) (ys xs : list R) :
  ys <> [] -> xs <> [] -> concat (outer f ys xs) <> [].
Proof.
  intros Hy Hx. destruct ys as [|y ys]; [contradiction|].
  destruct xs as [|x xs]; [contradiction|]. discriminate.
Qed.

(** X6. In exact real arithmetic, the two values [main] and
    [plot_positions_with_parker] hand to [LogNorm] are fit for a logarithmic
    scale: for arguments of moderate magnitude with both radii at least
    [1e-30] and a grid of at least one row and one column, [np.min (B)] and
    [np.max (B)] are cells of [B], bound every cell, and satisfy
    [0 < vmin <= vmax]. *)
Theorem lognorm_args_positive (a : SpiralArgs) (Hmod : moderate a)
        (Hmin : 1e-30 <= r_min a) (Hmax : 1e-30 <= r_max a)
        (Hnr : (0 < n_r a)%nat) (Hnphi : (0 < n_phi a)%nat) :
  exists x y z B vmin vmax,
    compute_parker_spiral_surface a = inr (x, y, z, B)
    /\ lognorm_args B = inr (vmin, vmax)
    /\ 0 < vmin /\ vmin <= vmax
    /\ (exists row, In row B /\ In vmin row)
    /\ (exists row, In row B /\ In vmax row)
    /\ (forall row b, In row B -> In b row -> vmin <= b <= vmax).
Proof.
  destruct (moderate_nonzero a Hmod) as [Hrot Hv].
  assert (Hmin0 : 0 < r_min a) by lra.
  assert (Hmax0 : 0 < r_max a) by lra.
  pose proof (compute_outer a Hrot Hv) as E. cbv zeta in E.
  set (B := outer (fun phi r => field a (v_sw_AU_day a) r (theta a phi))
                  (phi_vals a) (r_vals a)) in *.
  assert (Hpos : forall row b, In row B -> In b row -> 0 < b).
  { intros row b Hrow Hb.
    destruct (outer_In _ _ _ _ _ Hrow Hb) as (phi & r & _ & Hr & ->).
    apply field_pos. now apply (r_vals_pos a Hmin0 Hmax0). }
  pose proof (lognorm_args_spec B) as Hs.
  destruct (lognorm_args B) as [e|[vmin vmax]] eqn:El.
  - exfalso. destruct Hs as [Hs _]. revert Hs.
    apply concat_outer_nonempty.
    + intro H0. apply (f_equal (@length R)) in H0.
      unfold phi_vals in H0. rewrite linspace_length in H0. simpl in H0. lia.
    + intro H0. apply (f_equal (@length R)) in H0.
      unfold r_vals in H0. rewrite linspace_length in H0. simpl in H0. lia.
  - destruct Hs as (Hi & Hi' & Hb).
    do 3 eexists. exists B, vmin, vmax.
    split; [exact E|]. split; [exact El|].
    apply in_concat in Hi. destruct Hi as (row & Hrow & Hin).
    apply in_concat in Hi'. destruct Hi' as (row' & Hrow' & Hin').
    split; [now apply (Hpos row)|].
    assert (Hle : vmin <= vmin <= vmax)
      by (apply Hb; apply in_concat; now exists row).
    split; [apply Hle|].
    split; [now exists row|]. split; [now exists row'|].
    intros r b Hr Hbr. apply Hb. apply in_concat. now exists r.
Qed.

Lemma lognorm_args_positive_witness :
  exists x y z B vmin vmax,
    compute_parker_spiral_surface defaults = inr (x, y, z, B)
    /\ lognorm_args B = inr (vmin, vmax)
    /\ 0 < vmin /\ vmin <= vmax.
Proof.
  assert (Hmin : 1e-30 <= r_min defaults) by (simpl; lra).
  assert (Hmax : 1e-30 <= r_max defaults) by (simpl; lra).
  assert (Hnr : (0 < n_r defaults)%nat) by (simpl; lia).
  assert (Hnphi : (0 < n_phi defaults)%nat) by (simpl; lia).
  destruct (lognorm_args_positive defaults defaults_moderate Hmin Hmax
                                  Hnr Hnphi)
    as (x & y & z & B & vmin & vmax & E & El & H0 & H1 & _).
  exists x, y, z, B, vmin, vmax. repeat split; assumption.
Defined.

End SurfaceMore.

(** ** [main] of psp_plus_mms_plus_parker_spiral.py: reading the parameters *)

Section ParkerMain.

Import parker_spiral.
Import terminal.
Import parker_spiral_more.

Variable float_of_str : pystr -> option R.
Variable fmt : R -> pystr.

(** One call of [get_input] on a terminal with a line left: the line is
    consumed and the call returns [value_read]. *)
Lemma get_input_io_line (prompt : pystr) (default : R) (c : Console)
      (line : pystr) (rest : list pystr) :
  stdin c = line :: rest ->
  exists out,
    get_input R float_of_str fmt input prompt default c
    = (inr (value_read float_of_str default line),
       {| stdin := rest; stdout := stdout c ++ out |}).
Proof.
  intro Hc. unfold get_input, value_read, io_bind, input, print, io_ret.
  rewrite Hc.
  destruct (is_empty (strip line)); [eexists; reflexivity|].
  destruct (float_of_str line); [eexists; reflexivity|].
  unfold write. cbn [stdin stdout]. rewrite <- app_assoc.
  eexists; reflexivity.
Qed.

(** At the end of input the call raises [EOFError]. *)
Lemma get_input_io_eof (prompt : pystr) (default : R) (c : Console) :
  stdin c = [] ->
  exists out,
    get_input R float_of_str fmt input prompt default c
    = (inl "EOFError"%string, {| stdin := []; stdout := stdout c ++ out |}).
Proof.
  intro Hc. unfold get_input, io_bind, input, write. rewrite Hc.
  eexists; reflexivity.
Qed.

Lemma main_surface_five (c : Console) (l1 l2 l3 l4 l5 : pystr)
      (rest : list pystr) :
  stdin c = l1 :: l2 :: l3 :: l4 :: l5 :: rest ->
  exists out,
    main_surface float_of_str fmt c
    = (compute_parker_spiral_surface
         (main_args (value_read float_of_str 10.0 l1)
                    (value_read float_of_str 15.0 l2)
                    (value_read float_of_str 25.4 l3)
                    (value_read float_of_str 400.0 l4)
                    (value_read float_of_str 1.5 l5)),
       {| stdin := rest; stdout := out |}).
Proof.
  intro Hc. unfold main_surface, io_bind, print, lift. cbn [write].
  set (c0 := write _ (write _ c)).
  assert (H0 : stdin c0 = l1 :: l2 :: l3 :: l4 :: l5 :: rest) by exact Hc.
  destruct (get_input_io_line (of_string "Tilt angle (deg)") 10.0 c0 _ _ H0)
    as [o1 ->].
  match goal with |- context [get_input _ _ _ _ ?p ?d ?k] =>
    destruct (get_input_io_line p d k l2 (l3 :: l4 :: l5 :: rest) eq_refl)
      as [o2 ->] end.
  match goal with |- context [get_input _ _ _ _ ?p ?d ?k] =>
    destruct (get_input_io_line p d k l3 (l4 :: l5 :: rest) eq_refl)
      as [o3 ->] end.
  match goal with |- context [get_input _ _ _ _ ?p ?d ?k] =>
    destruct (get_input_io_line p d k l4 (l5 :: rest) eq_refl)
      as [o4 ->] end.
  match goal with |- context [get_input _ _ _ _ ?p ?d ?k] =>
    destruct (get_input_io_line p d k l5 rest eq_refl)
      as [o5 ->] end.
  eexists. reflexivity.
Qed.

Lemma value_read_zero (default : R) (line : pystr) :
  default <> 0 ->
  (value_read float_of_str default line = 0
   <-> is_empty (strip line) = false /\ float_of_str line = Some 0).
Proof.
  intro Hd. unfold value_read. split.
  - destruct (is_empty (strip line)); [intro; contradiction|].
    destruct (float_of_str line) as [v|]; [|intro; contradiction].
    intros ->. now split.
  - intros [-> ->]. reflexivity.
Qed.

Lemma value_read_default (default : R) (line : pystr) :
  is_empty (strip line) = true \/ float_of_str line = None ->
  value_read float_of_str default line = default.
Proof.
  unfold value_read. intros [->| ->]; [reflexivity|].
  now destruct (is_empty (strip line)).
Qed.

(** X7. With five lines left on standard input, [main] reads exactly those
    five and calls [compute_parker_spiral_surface] with [r_min = 0.1], a grid
    of 100 by 100 and the five values read; when every one of the five lines
    is blank or is refused by [float], the surface computed is that of the
    signature's defaults, and the call returns. *)
Theorem main_surface_reads_five (c : Console) (l1 l2 l3 l4 l5 : pystr)
        (rest : list pystr)
        (Hc : stdin c = l1 :: l2 :: l3 :: l4 :: l5 :: rest) :
  fst (main_surface float_of_str fmt c)
  = compute_parker_spiral_surface
      {| r_min := 0.1;
         r_max := value_read float_of_str 1.5 l5;
         n_r := 100; n_phi := 100;
         tilt_deg := value_read float_of_str 10.0 l1;
         amp_deg := value_read float_of_str 15.0 l2;
         solar_rot_days := value_read float_of_str 25.4 l3;
         v_sw_km_s := value_read float_of_str 400.0 l4 |}
  /\ stdin (snd (main_surface float_of_str fmt c)) = rest
  /\ (Forall (fun l => is_empty (strip l) = true \/ float_of_str l = None)
             [l1; l2; l3; l4; l5] ->
      fst (main_surface float_of_str fmt c)
      = compute_parker_spiral_surface defaults
      /\ exists S, compute_parker_spiral_surface defaults = inr S).
Proof.
  destruct (main_surface_five c l1 l2 l3 l4 l5 rest Hc) as [out E].
  rewrite E. cbn [fst snd stdin].
  split; [reflexivity|]. split; [reflexivity|].
  intro Hall.
  inversion_clear Hall as [|? ? H1 Hall']. inversion_clear Hall' as [|? ? H2 Hall].
  inversion_clear Hall as [|? ? H3 Hall']. inversion_clear Hall' as [|? ? H4 Hall].
  inversion_clear Hall as [|? ? H5 _].
  rewrite !value_read_default by assumption.
  split; [reflexivity|].
  eexists. apply compute_outer; simpl; lra.
Qed.

(** X8. With five lines left, [main] raises [ZeroDivisionError], which
    nothing in [main] catches, as soon as the third line (rotation period)
    or the fourth (wind speed) is a non-blank line that [float] turns into
    zero: no surface is computed. *)
Theorem main_surface_zero_division (c : Console) (l1 l2 l3 l4 l5 : pystr)
        (rest : list pystr)
        (Hc : stdin c = l1 :: l2 :: l3 :: l4 :: l5 :: rest)
        (Hz : (is_empty (strip l3) = false /\ float_of_str l3 = Some 0)
              \/ (is_empty (strip l4) = false /\ float_of_str l4 = Some 0)) :
  fst (main_surface float_of_str fmt c) = inl "ZeroDivisionError"%string.
Proof.
  destruct (main_surface_five c l1 l2 l3 l4 l5 rest Hc) as [out E].
  rewrite E. cbn [fst].
  assert (H3 : (25.4 : R) <> 0) by lra.
  assert (H4 : (400.0 : R) <> 0) by lra.
  apply compute_raises. cbn [solar_rot_days v_sw_km_s main_args].
  destruct Hz as [Hz|Hz]; [left|right].
  - now apply (value_read_zero 25.4 l3 H3).
  - now apply (value_read_zero 400.0 l4 H4).
Qed.

(** X9. With fewer than five lines left, [main] ends in an [EOFError]
    raised by [input], having read every line there was; no surface is
    computed, whatever the lines read. *)
Theorem main_surface_eof (c : Console)
        (Hc : (length (stdin c) < 5)%nat) :
  fst (main_surface float_of_str fmt c) = inl "EOFError"%string
  /\ stdin (snd (main_surface float_of_str fmt c)) = [].
Proof.
  unfold main_surface, io_bind, print, lift. cbn [write].
  set (c0 := write _ (write _ c)).
  assert (H0 : stdin c0 = stdin c) by reflexivity.
  revert H0. generalize c0. clear c0. intros c0 H0.
  destruct (stdin c) as [|l1 [|l2 [|l3 [|l4 [|l5 rest]]]]];
    [| | | | |simpl in Hc; lia];
    repeat
      (match goal with
       | |- context [get_input _ _ _ _ ?p ?d ?k] =>
           first
             [ destruct (get_input_io_eof p d k) as [? ->];
               [first [exact H0|reflexivity]|]
             | let E := fresh "E" in
               edestruct (get_input_io_line p d k) as [? E];
               [first [exact H0|reflexivity]|rewrite E; clear E] ]
       end);
    split; reflexivity.
Qed.

End ParkerMain.

Section ParkerMainExamples.

Import parker_spiral.
Import terminal.
Import parker_spiral_more.

Lemma main_surface_reads_five_witness :
  fst (main_surface (fun _ => None) (fun _ => [])
         {| stdin := [[]; of_string "abc"; []; of_string "  "; []; []];
            stdout := [] |})
  = compute_parker_spiral_surface defaults
  /\ stdin (snd (main_surface (fun _ => None) (fun _ => [])
         {| stdin := [[]; of_string "abc"; []; of_string "  "; []; []];
            stdout := [] |})) = [[]].
Proof.
  destruct (main_surface_reads_five (fun _ => None) (fun _ => [])
              {| stdin := [[]; of_string "abc"; []; of_string "  "; []; []];
                 stdout := [] |}
              [] (of_string "abc") [] (of_string "  ") [] [[]] eq_refl)
    as (_ & Hrest & Hdef).
  split; [|exact Hrest].
  apply Hdef. repeat constructor; now right.
Defined.

Lemma main_surface_zero_division_witness :
  fst (main_surface
         (fun l => match l with [48%N] => Some 0 | _ => None end)
         (fun _ => [])
         {| stdin := [[]; []; [48%N]; []; []]; stdout := [] |})
  = inl "ZeroDivisionError"%string.
Proof.
  apply (main_surface_zero_division
           (fun l => match l with [48%N] => Some 0 | _ => None end)
           (fun _ => [])
           {| stdin := [[]; []; [48%N]; []; []]; stdout := [] |}
           [] [] [48%N] [] [] [] eq_refl).
  left. split; reflexivity.
Defined.

Lemma main_surface_eof_witness :
  fst (main_surface (fun _ => None) (fun _ => [])
         {| stdin := [[]; []; []]; stdout := [] |})
  = inl "EOFError"%string.
Proof.
  apply (main_surface_eof (fun _ => None) (fun _ => [])
           {| stdin := [[]; []; []]; stdout := [] |}).
  simpl. lia.
Defined.

End ParkerMainExamples.

(** ** main.py: the menu *)

Section Menu.

Import parker_spiral.
Import terminal.
Import main_py.

Variable int_of_str : pystr -> option Z.

(** Whatever is left on standard input, the loop returns an integer within
    the bounds, read off one of the lines, or ends in [EOFError]. *)
Lemma choice_loop_inv (prompt : pystr) (lo hi : Z) (out_of_range : pystr)
      (lines : list pystr) (out : list pystr) :
  match fst (choice_loop int_of_str prompt lo hi out_of_range lines out) with
  | inr k =>
      (lo <= k <= hi)%Z
      /\ exists line, In line lines /\ int_of_str line = Some k
  | inl e => e = "EOFError"%string
  end.
Proof.
  revert out. induction lines as [|line rest IH]; intro out; simpl.
  - reflexivity.
  - destruct (int_of_str line) as [k|] eqn:E.
    + destruct ((lo <=? k)%Z && (k <=? hi)%Z) eqn:Hr.
      * simpl. apply andb_prop in Hr. destruct Hr as [H1 H2].
        split; [lia|]. exists line. split; [now left|exact E].
      * specialize (IH ((out ++ [prompt]) ++ [out_of_range])).
        destruct (fst (choice_loop _ _ _ _ _ rest _)) as [e|k']; [exact IH|].
        destruct IH as [Hk (l & Hl & El)].
        split; [exact Hk|]. exists l. split; [now right|exact El].
    + specialize (IH ((out ++ [prompt])
                        ++ [of_string "Please enter a valid number"])).
      destruct (fst (choice_loop _ _ _ _ _ rest _)) as [e|k']; [exact IH|].
      destruct IH as [Hk (l & Hl & El)].
      split; [exact Hk|]. exists l. split; [now right|exact El].
Qed.

(** X10. The loop returns the first line that [int] accepts and that lies
    within the bounds: every line before it is consumed and answered, in
    order, by the prompt and one message (the out-of-range message for an
    integer, the other for a line [int] refuses); the lines after it are
    left unread. *)
Theorem choice_loop_first_valid (prompt : pystr) (lo hi : Z)
        (out_of_range : pystr) (bad : list pystr) (good : pystr)
        (rest out : list pystr) (k : Z)
        (Hbad : Forall (fun l => forall z, int_of_str l = Some z ->
                                           (z < lo \/ hi < z)%Z) bad)
        (Hgood : int_of_str good = Some k) (Hk : (lo <= k <= hi)%Z) :
  choice_loop int_of_str prompt lo hi out_of_range (bad ++ good :: rest) out
  = (inr k,
     {| stdin := rest;
        stdout :=
          out
          ++ flat_map
               (fun l =>
                  [prompt;
                   match int_of_str l with
                   | Some _ => out_of_range
                   | None => of_string "Please enter a valid number"
                   end]) bad
          ++ [prompt] |}).
Proof.
  revert out. induction Hbad as [|l bad Hl Hbad IH]; intro out; simpl.
  - rewrite Hgood.
    replace ((lo <=? k)%Z && (k <=? hi)%Z) with true
      by (symmetry; apply andb_true_intro; split; lia).
    reflexivity.
  - destruct (int_of_str l) as [z|] eqn:E.
    + replace ((lo <=? z)%Z && (z <=? hi)%Z) with false
        by (symmetry; apply andb_false_iff;
            destruct (Hl z eq_refl); [left|right]; lia).
      rewrite IH. rewrite <- !app_assoc. reflexivity.
    + rewrite IH. rewrite <- !app_assoc. reflexivity.
Qed.

(** X11. When no line left is an integer within the bounds, the loop reads
    them all, answers each one, writes the prompt once more and ends in the
    [EOFError] of [input]: the [except ValueError] clause does not catch
    it. *)
Theorem choice_loop_all_rejected (prompt : pystr) (lo hi : Z)
        (out_of_range : pystr) (lines out : list pystr)
        (Hbad : Forall (fun l => forall z, int_of_str l = Some z ->
                                           (z < lo \/ hi < z)%Z) lines) :
  choice_loop int_of_str prompt lo hi out_of_range lines out
  = (inl "EOFError"%string,
     {| stdin := [];
        stdout :=
          out
          ++ flat_map
               (fun l =>
                  [prompt;
                   match int_of_str l with
                   | Some _ => out_of_range
                   | None => of_string "Please enter a valid number"
                   end]) lines
          ++ [prompt] |}).
Proof.
  revert out. induction Hbad as [|l bad Hl Hbad IH]; intro out; simpl.
  - reflexivity.
  - destruct (int_of_str l) as [z|] eqn:E.
    + replace ((lo <=? z)%Z && (z <=? hi)%Z) with false
        by (symmetry; apply andb_false_iff;
            destruct (Hl z eq_refl); [left|right]; lia).
      rewrite IH. rewrite <- !app_assoc. reflexivity.
    + rewrite IH. rewrite <- !app_assoc. reflexivity.
Qed.

Lemma read_choice_inv (prompt : pystr) (lo hi : Z) (out_of_range : pystr)
      (c : Console) :
  match fst (read_choice int_of_str prompt lo hi out_of_range c) with
  | inr k => (lo <= k <= hi)%Z
  | inl e => e = "EOFError"%string
  end.
Proof.
  unfold read_choice.
  pose proof (choice_loop_inv prompt lo hi out_of_range (stdin c) (stdout c))
    as H.
  destruct (fst (choice_loop _ _ _ _ _ _ _)); [exact H|apply H].
Qed.

(** X12. [get_user_input] returns one of the four spacecraft names with one
    of the two analysis names, or ends in the [EOFError] of [input]; the
    two dictionary look-ups never raise [KeyError]. *)
Theorem get_user_input_result (c : Console) :
  match fst (get_user_input int_of_str c) with
  | inr (spacecraft, analysis) =>
      In spacecraft [of_string "psp"; of_string "mms"; of_string "psp+mms";
                     of_string "psp+mms+parker"]
      /\ In analysis [of_string "trajectory"; of_string "data_retrieval"]
  | inl e => e = "EOFError"%string
  end.
Proof.
  unfold get_user_input, io_bind, print, lift, io_ret.
  match goal with |- context [read_choice _ ?p ?lo ?hi ?m ?k] =>
    pose proof (read_choice_inv p lo hi m k) as H1;
    destruct (read_choice int_of_str p lo hi m k) as [[e|k1] c1] end;
    [exact H1|].
  cbn [fst] in H1.
  assert (Hk1 : k1 = 1%Z \/ k1 = 2%Z \/ k1 = 3%Z \/ k1 = 4%Z) by lia.
  match goal with |- context [read_choice _ ?p ?lo ?hi ?m ?k] =>
    pose proof (read_choice_inv p lo hi m k) as H2 end.
  destruct Hk1 as [->|[->|[->| ->]]]; cbn [dict_get spacecraft_map find fst snd
                                            Z.eqb Pos.eqb ret] in *;
    (match goal with |- context [read_choice _ ?p ?lo ?hi ?m ?k] =>
       destruct (read_choice int_of_str p lo hi m k) as [[e|k2] c2] end;
     [exact H2|]; cbn [fst] in H2;
     assert (Hk2 : k2 = 1%Z \/ k2 = 2%Z) by lia;
     destruct Hk2 as [->| ->];
     cbn [dict_get analysis_map find fst snd Z.eqb Pos.eqb ret];
     split; simpl; tauto).
Qed.

Variables analyze_psp analyze_mms analyze_psp_mms analyze_psp_mms_parker
  : pystr -> IO unit.
Variable str_exn : exn -> pystr.

(** X13. After the two menus every pair of valid choices reaches exactly one
    analyzer, none falls through the [if]/[elif] chain: choice [k] of the
    first menu runs the [k]-th analyzer, on "trajectory" for choice 1 of the
    second menu and on "data_retrieval" for choice 2, with the two lines
    consumed. *)
Theorem main_try_dispatch (c : Console) (l1 l2 : pystr) (rest : list pystr)
        (k j : Z)
        (Hc : stdin c = l1 :: l2 :: rest)
        (H1 : int_of_str l1 = Some k) (Hk : (1 <= k <= 4)%Z)
        (H2 : int_of_str l2 = Some j) (Hj : (1 <= j <= 2)%Z) :
  exists c',
    main_try int_of_str analyze_psp analyze_mms analyze_psp_mms
             analyze_psp_mms_parker c
    = (match k with
       | 1 => analyze_psp
       | 2 => analyze_mms
       | 3 => analyze_psp_mms
       | _ => analyze_psp_mms_parker
       end%Z)
        (if (j =? 1)%Z then of_string "trajectory"
         else of_string "data_retrieval") c'
    /\ stdin c' = rest.
Proof.
  unfold main_try, get_user_input, io_bind, print, lift, io_ret, read_choice.
  cbn [write stdin stdout]. rewrite Hc. cbn [choice_loop]. rewrite H1.
  replace ((1 <=? k)%Z && (k <=? 4)%Z) with true
    by (symmetry; apply andb_true_intro; split; lia).
  cbn [stdin stdout]. cbn [choice_loop].
  assert (Hk' : k = 1%Z \/ k = 2%Z \/ k = 3%Z \/ k = 4%Z) by lia.
  assert (Hj' : j = 1%Z \/ j = 2%Z) by lia.
  destruct Hk' as [->|[->|[->| ->]]];
    cbn [dict_get spacecraft_map find fst snd Z.eqb Pos.eqb ret];
    cbn [choice_loop]; rewrite H2;
    destruct Hj' as [->| ->];
    cbn [Z.leb Z.compare Pos.compare Pos.compare_cont andb Z.eqb Pos.eqb
         dict_get analysis_map find fst snd ret stdin stdout];
    eexists; (split; [reflexivity|reflexivity]).
Qed.


(** X15. With standard input closed, [main] shows the first menu, reports
    the [EOFError] of the first [input] as an error without calling an
    analyzer, and then ends in the [EOFError] of the closing [input], which
    nothing catches. *)
Theorem main_closed_stdin (c : Console) (Hc : stdin c = []) :
  main int_of_str analyze_psp analyze_mms analyze_psp_mms
       analyze_psp_mms_parker str_exn c
  = (inl "EOFError"%string,
     {| stdin := [];
        stdout :=
          stdout c
          ++ [nl "Spacecraft Trajectory Analyzer";
              of_string "============================";
              nl "Available spacecraft options:";
              of_string "1. PSP (Parker Solar Probe)";
              of_string "2. MMS (Magnetospheric Multiscale)";
              of_string "3. PSP + MMS";
              of_string "4. PSP + MMS + Parker Spiral";
              nl "Enter your choice (1-4): ";
              nl "An error occurred: " ++ str_exn "EOFError"%string;
              nl "Press Enter to exit..."] |}).
Proof.
  unfold main, main_try, get_user_input, io_bind, print, lift, io_ret,
    read_choice, input.
  cbn [write stdin stdout]. rewrite Hc. cbn [choice_loop].
  cbn [String.eqb Ascii.eqb Bool.eqb is_Exception negb orb andb write stdin
       stdout].
  unfold write. cbn [stdin stdout]. rewrite <- !app_assoc. reflexivity.
Qed.

End Menu.

Section MenuExamples.

Import parker_spiral.
Import terminal.
Import main_py.

Lemma choice_loop_first_valid_witness :
  choice_loop digit (of_string "? ") 1 4 (of_string "no")
              [of_string "7"; of_string "x"; of_string "3"; of_string "1"] []
  = (inr 3%Z,
     {| stdin := [of_string "1"];
        stdout := [of_string "? "; of_string "no"; of_string "? ";
                   of_string "Please enter a valid number";
                   of_string "? "] |}).
Proof.
  apply (choice_loop_first_valid digit (of_string "? ") 1 4 (of_string "no")
           [of_string "7"; of_string "x"] (of_string "3") [of_string "1"]
           [] 3%Z).
  - apply Forall_cons; [|apply Forall_cons; [|apply Forall_nil]];
      simpl; intros z Hz; [|discriminate].
    injection Hz as <-. right. lia.
  - reflexivity.
  - lia.
Defined.

Lemma choice_loop_all_rejected_witness :
  choice_loop digit (of_string "? ") 1 2 (of_string "no")
              [of_string "7"; of_string "x"] []
  = (inl "EOFError"%string,
     {| stdin := [];
        stdout := [of_string "? "; of_string "no"; of_string "? ";
                   of_string "Please enter a valid number";
                   of_string "? "] |}).
Proof.
  apply (choice_loop_all_rejected digit (of_string "? ") 1 2
           (of_string "no") [of_string "7"; of_string "x"] []).
  apply Forall_cons; [|apply Forall_cons; [|apply Forall_nil]];
    simpl; intros z Hz; [|discriminate].
  injection Hz as <-. right. lia.
Defined.

Lemma main_try_dispatch_witness :
  exists c',
    main_try digit (fun _ => io_ret tt) (fun _ => io_ret tt) print
             (fun _ => io_ret tt)
             {| stdin := [of_string "3"; of_string "1"; []]; stdout := [] |}
    = print (of_string "trajectory") c'
    /\ stdin c' = [[]].
Proof.
  apply (main_try_dispatch digit (fun _ => io_ret tt) (fun _ => io_ret tt)
           print (fun _ => io_ret tt)
           {| stdin := [of_string "3"; of_string "1"; []]; stdout := [] |}
           (of_string "3") (of_string "1") [[]] 3%Z 1%Z eq_refl eq_refl).
  - lia.
  - reflexivity.
  - lia.
Defined.


Lemma main_closed_stdin_witness :
  fst (main digit (fun _ => io_ret tt) (fun _ => io_ret tt)
            (fun _ => io_ret tt) (fun _ => io_ret tt) of_string
            {| stdin := []; stdout := [] |})
  = inl "EOFError"%string.
Proof.
  rewrite (main_closed_stdin digit (fun _ => io_ret tt) (fun _ => io_ret tt)
             (fun _ => io_ret tt) (fun _ => io_ret tt) of_string
             {| stdin := []; stdout := [] |} eq_refl).
  reflexivity.
Defined.

End MenuExamples.

(** ** The analyzers *)

Section AnalyzerProps.

Import parker_spiral.
Import parker_spiral_more.
Import terminal.
Import main_py.
Import analyzers.

Variable fetch_psp_position_horizons : IO Vec3.
Variable fetch_mms_position : IO (option Vec3).
Variable render_mms : Vec3 -> IO unit.
Variable render_both : Vec3 * Vec3 -> IO unit.
Variable render_parker : Scene -> IO unit.
Variable new_figure : IO unit.
Variable fmt : R -> pystr.
Variable str_exn : exn -> pystr.

(** A [try] statement whose handler only prints lets no [Exception]
    through. *)
Lemma try_except_print (body : IO unit) (msg : exn -> pystr) (c : Console) :
  match fst (try_except_Exception body (fun e => print (msg e)) c) with
  | inl e => is_Exception e = false
  | inr _ => True
  end.
Proof.
  unfold try_except_Exception.
  destruct (body c) as [[e|a] c']; [|exact I].
  destruct (is_Exception e) eqn:E; [exact I|exact E].
Qed.

(** X16. None of the four analyzers lets an [Exception] escape, whatever the
    analysis type and whatever the remote queries and the plotting calls do:
    an exception that leaves an analyzer is not an [Exception] (it is a
    [KeyboardInterrupt], a [SystemExit] or a [GeneratorExit]). *)
Theorem analyzers_catch (analysis_type : pystr) (c : Console) :
  let escapes (r : Py unit) :=
    match r with
    | inl e => is_Exception e = false
    | inr _ => True
    end in
  escapes (fst (analyze_psp fetch_psp_position_horizons fmt str_exn
                            analysis_type c))
  /\ escapes (fst (analyze_mms fetch_mms_position render_mms fmt str_exn
                               analysis_type c))
  /\ escapes (fst (analyze_psp_mms fetch_psp_position_horizons
                                   fetch_mms_position render_both fmt
                                   str_exn analysis_type c))
  /\ escapes (fst (analyze_psp_mms_parker fetch_psp_position_horizons
                                          fetch_mms_position render_parker
                                          new_figure fmt str_exn
                                          analysis_type c)).
Proof.
  cbv zeta.
  unfold analyze_psp, analyze_mms, analyze_psp_mms, analyze_psp_mms_parker.
  destruct (pystr_eqb analysis_type (of_string "trajectory")).
  - repeat split; apply try_except_print.
  - destruct (pystr_eqb analysis_type (of_string "data_retrieval"));
      repeat split; exact I.
Qed.

Lemma data_retrieval_ne_trajectory :
  pystr_eqb (of_string "data_retrieval") (of_string "trajectory") = false.
Proof. reflexivity. Qed.

Lemma data_retrieval_refl :
  pystr_eqb (of_string "data_retrieval") (of_string "data_retrieval") = true.
Proof. reflexivity. Qed.

Lemma trajectory_refl :
  pystr_eqb (of_string "trajectory") (of_string "trajectory") = true.
Proof. reflexivity. Qed.

Lemma defaults_lognorm :
  exists S norm,
    compute_parker_spiral_surface defaults = inr S
    /\ lognorm_args (snd S) = inr norm.
Proof.
  assert (Hrot : solar_rot_days defaults <> 0) by (simpl; lra).
  assert (Hv : v_sw_km_s defaults <> 0) by (simpl; lra).
  pose proof (compute_outer defaults Hrot Hv) as E. cbv zeta in E.
  eexists. 
  match type of E with _ = inr (_, _, _, ?B) =>
    pose proof (lognorm_args_spec B) as Hs;
    destruct (lognorm_args B) as [e|norm] eqn:El end.
  - exfalso. destruct Hs as [Hs _]. revert Hs.
    apply concat_outer_nonempty.
    + intro H0. apply (f_equal (@length R)) in H0.
      unfold phi_vals in H0. rewrite linspace_length in H0. simpl in H0. lia.
    + intro H0. apply (f_equal (@length R)) in H0.
      unfold r_vals in H0. rewrite linspace_length in H0. simpl in H0. lia.
  - exists norm. split; [exact E|exact El].
Qed.

(** X17. On "trajectory", once both queries have answered and the figure is
    created, [analyze_psp_mms_parker] reaches the plot: the surface and the
    colour scale are those of the default arguments, which never raise; the
    Sun is drawn at the origin, the Earth at (1, 0, 0), PSP where Horizons
    put it and MMS at [mms_helio] of the position fetched; an [Exception]
    of the plotting calls is caught and reported. *)
Theorem parker_trajectory_scene (c c1 c2 c3 : Console) (p m : Vec3)
        (Hp : fetch_psp_position_horizons c = (inr p, c1))
        (Hm : fetch_mms_position c1 = (inr (Some m), c2))
        (Hf : new_figure
                (write (xyz_text fmt "MMS Position (AU): " (mms_helio m))
                   (write (xyz_text fmt "PSP Position (AU): " p) c2))
              = (inr tt, c3)) :
  exists S norm,
    compute_parker_spiral_surface defaults = inr S
    /\ lognorm_args (snd S) = inr norm
    /\ analyze_psp_mms_parker fetch_psp_position_horizons fetch_mms_position
         render_parker new_figure fmt str_exn (of_string "trajectory") c
       = try_except_Exception
           (_ <<- render_parker {| surface := S; lognorm := norm;
                                   sun := (0, 0, 0); earth := (1, 0, 0);
                                   psp := p; mms := mms_helio m |} ;;
            print (nl "Plot saved as 'plot_with_parker_spiral.png'"))
           (fun e => print (of_string "Error analyzing trajectories: "
                              ++ str_exn e))
           c3.
Proof.
  destruct defaults_lognorm as (S & norm & ES & En).
  exists S, norm. split; [exact ES|]. split; [exact En|].
  unfold analyze_psp_mms_parker. rewrite trajectory_refl.
  unfold try_except_Exception, plot_positions_with_parker, io_bind, lift,
    print.
  rewrite Hp, Hm, Hf, ES, En. reflexivity.
Qed.

(** X18. On "trajectory", once both queries have answered,
    [analyze_psp_mms] plots the MMS position divided by 149597870.7 and the
    PSP position divided by the same number: a PSP position whose
    coordinates are at most 1 in absolute value, as Horizons gives them in
    AU, is drawn with every coordinate below 1e-8 in absolute value, at a
    distance below 1.2e-8 from the origin, where the Earth is drawn. *)
Theorem psp_mms_trajectory_plot (c c1 c2 : Console) (p0 p1 p2 : R)
        (m : Vec3)
        (Hp : fetch_psp_position_horizons c = (inr (p0, p1, p2), c1))
        (Hm : fetch_mms_position c1 = (inr (Some m), c2))
        (H0 : Rabs p0 <= 1) (H1 : Rabs p1 <= 1) (H2 : Rabs p2 <= 1) :
  exists q0 q1 q2,
    analyze_psp_mms fetch_psp_position_horizons fetch_mms_position
                    render_both fmt str_exn (of_string "trajectory") c
    = try_except_Exception
        (render_both ((q0, q1, q2), gse_plots.plot_positions m))
        (fun e => print (of_string "Error analyzing PSP and MMS trajectories: "
                           ++ str_exn e))
        (write (xyz_text fmt "MMS Position (km): " m)
           (write (xyz_text fmt "PSP Position (km): " (p0, p1, p2)) c2))
    /\ q0 = p0 / 149597870.7 /\ q1 = p1 / 149597870.7
    /\ q2 = p2 / 149597870.7
    /\ Rabs q0 < 1e-8 /\ Rabs q1 < 1e-8 /\ Rabs q2 < 1e-8
    /\ sqrt (q0 * q0 + q1 * q1 + q2 * q2) < 1.2e-8.
Proof.
  exists (p0 / 149597870.7), (p1 / 149597870.7), (p2 / 149597870.7).
  split.
  - unfold analyze_psp_mms. rewrite trajectory_refl.
    unfold try_except_Exception, plot_both_positions, io_bind, print.
    rewrite Hp, Hm. destruct m as [[m0 m1] m2]. reflexivity.
  - do 3 (split; [reflexivity|]).
    assert (B0 : -1 <= p0 <= 1)
      by (unfold Rabs in H0; destruct (Rcase_abs p0); lra).
    assert (B1 : -1 <= p1 <= 1)
      by (unfold Rabs in H1; destruct (Rcase_abs p1); lra).
    assert (B2 : -1 <= p2 <= 1)
      by (unfold Rabs in H2; destruct (Rcase_abs p2); lra).
    split; [apply Rabs_def1; lra|]. split; [apply Rabs_def1; lra|].
    split; [apply Rabs_def1; lra|].
    unfold Rdiv. set (k := / 149597870.7).
    assert (Hk : 0 < k < 6.7e-9).
    { unfold k. split; [apply Rinv_0_lt_compat; lra|].
      apply (Rmult_lt_reg_r 149597870.7); [lra|].
      rewrite Rinv_l by lra. lra. }
    apply Rlt_le_trans with (sqrt (1.2e-8 * 1.2e-8));
      [|rewrite sqrt_square by lra; lra].
    apply sqrt_lt_1_alt.
    assert (Hk2 : 0 <= k * k < 6.7e-9 * 6.7e-9) by nra.
    assert (Hpp : 0 <= p0 * p0 + p1 * p1 + p2 * p2 <= 3) by nra.
    replace (p0 * k * (p0 * k) + p1 * k * (p1 * k) + p2 * k * (p2 * k))
      with ((p0 * p0 + p1 * p1 + p2 * p2) * (k * k)) by ring.
    split; [apply Rmult_le_pos; lra|].
    apply Rle_lt_trans with (3 * (k * k)); [|lra].
    apply Rmult_le_compat_r; lra.
Qed.

End AnalyzerProps.

Section ProgramProps.

Import parker_spiral.
Import parker_spiral_more.
Import terminal.
Import main_py.
Import analyzers.

(** X19. Choosing "Data Retrieval" in the second menu never queries a remote
    service and never plots: with three lines left (the two choices and the
    closing Enter) the program returns normally, and what it has read and
    written is the same whatever the queries and the plotting calls would
    have done. *)
Theorem data_retrieval_offline (int_of_str : pystr -> option Z)
        (c : Console) (l1 l2 l3 : pystr) (rest : list pystr) (k : Z)
        (Hc : stdin c = l1 :: l2 :: l3 :: rest)
        (H1 : int_of_str l1 = Some k) (Hk : (1 <= k <= 4)%Z)
        (H2 : int_of_str l2 = Some 2%Z) :
  exists c',
    stdin c' = rest
    /\ forall (w : Services) fmt str_exn,
         program w fmt str_exn int_of_str c = (inr tt, c').
Proof.
  assert (Hk' : k = 1%Z \/ k = 2%Z \/ k = 3%Z \/ k = 4%Z) by lia.
  unfold program, main, main_try, get_user_input, io_bind, print, lift,
    io_ret, read_choice.
  cbn [write stdin stdout]. rewrite Hc. cbn [choice_loop]. rewrite H1.
  replace ((1 <=? k)%Z && (k <=? 4)%Z) with true
    by (symmetry; apply andb_true_intro; split; lia).
  cbn [stdin stdout choice_loop].
  destruct Hk' as [->|[->|[->| ->]]];
    cbn [dict_get spacecraft_map find fst snd Z.eqb Pos.eqb ret];
    cbn [choice_loop]; rewrite H2;
    cbn [Z.leb Z.compare Pos.compare Pos.compare_cont andb Z.eqb Pos.eqb
         dict_get analysis_map find fst snd ret stdin stdout];
    unfold dispatch; cbn [fst snd];
    unfold analyze_psp, analyze_mms, analyze_psp_mms, analyze_psp_mms_parker;
    rewrite data_retrieval_ne_trajectory, data_retrieval_refl;
    eexists; (split; [|intros; reflexivity]); reflexivity.
Qed.

End ProgramProps.

Section AnalyzerExamples.

Import parker_spiral.
Import parker_spiral_more.
Import terminal.
Import main_py.
Import analyzers.

Lemma data_retrieval_offline_witness :
  exists c',
    stdin c' = [of_string "next"]
    /\ forall (w : Services) fmt str_exn,
         program w fmt str_exn digit
                 {| stdin := [of_string "3"; of_string "2"; [];
                              of_string "next"];
                    stdout := [] |}
         = (inr tt, c').
Proof.
  apply (data_retrieval_offline digit
           {| stdin := [of_string "3"; of_string "2"; []; of_string "next"];
              stdout := [] |}
           (of_string "3") (of_string "2") [] [of_string "next"] 3%Z
           eq_refl eq_refl).
  - lia.
  - reflexivity.
Defined.

Lemma parker_trajectory_scene_witness :
  exists S norm,
    compute_parker_spiral_surface defaults = inr S
    /\ lognorm_args (snd S) = inr norm
    /\ analyze_psp_mms_parker
         (io_ret (0.5, 0, 0)) (io_ret (Some (1000, 0, 0)))
         (fun _ => io_ret tt) (io_ret tt) (fun _ => []) of_string
         (of_string "trajectory") {| stdin := []; stdout := [] |}
       = try_except_Exception
           (_ <<- (fun _ : Scene => io_ret tt)
                    {| surface := S; lognorm := norm;
                       sun := (0, 0, 0); earth := (1, 0, 0);
                       psp := (0.5, 0, 0);
                       mms := mms_helio (1000, 0, 0) |} ;;
            print (nl "Plot saved as 'plot_with_parker_spiral.png'"))
           (fun e => print (of_string "Error analyzing trajectories: "
                              ++ of_string e))
           (write (xyz_text (fun _ => []) "MMS Position (AU): "
                            (mms_helio (1000, 0, 0)))
              (write (xyz_text (fun _ => []) "PSP Position (AU): "
                               (0.5, 0, 0))
                 {| stdin := []; stdout := [] |})).
Proof.
  exact (parker_trajectory_scene
           (io_ret (0.5, 0, 0)) (io_ret (Some (1000, 0, 0)))
           (fun _ => io_ret tt) (io_ret tt) (fun _ => []) of_string
           {| stdin := []; stdout := [] |} {| stdin := []; stdout := [] |}
           {| stdin := []; stdout := [] |} _ (0.5, 0, 0) (1000, 0, 0)
           eq_refl eq_refl eq_refl).
Defined.

Lemma psp_mms_trajectory_plot_witness :
  exists q0 q1 q2,
    analyze_psp_mms (io_ret (0.5, 0, 0)) (io_ret (Some (1000, 0, 0)))
                    (fun _ => io_ret tt) (fun _ => []) of_string
                    (of_string "trajectory") {| stdin := []; stdout := [] |}
    = try_except_Exception
        ((fun _ : Vec3 * Vec3 => io_ret tt)
           ((q0, q1, q2), gse_plots.plot_positions (1000, 0, 0)))
        (fun e => print (of_string "Error analyzing PSP and MMS trajectories: "
                           ++ of_string e))
        (write (xyz_text (fun _ => []) "MMS Position (km): " (1000, 0, 0))
           (write (xyz_text (fun _ => []) "PSP Position (km): " (0.5, 0, 0))
              {| stdin := []; stdout := [] |}))
    /\ q0 = 0.5 / 149597870.7 /\ q1 = 0 / 149597870.7
    /\ q2 = 0 / 149597870.7
    /\ Rabs q0 < 1e-8 /\ Rabs q1 < 1e-8 /\ Rabs q2 < 1e-8
    /\ sqrt (q0 * q0 + q1 * q1 + q2 * q2) < 1.2e-8.
Proof.
  apply (psp_mms_trajectory_plot
           (io_ret (0.5, 0, 0)) (io_ret (Some (1000, 0, 0)))
           (fun _ => io_ret tt) (fun _ => []) of_string
           {| stdin := []; stdout := [] |} {| stdin := []; stdout := [] |}
           {| stdin := []; stdout := [] |} 0.5 0 0 (1000, 0, 0)
           eq_refl eq_refl);
    unfold Rabs; destruct (Rcase_abs _); lra.
Defined.

End AnalyzerExamples.

(** ** The MMS query *)

Section CdasProps.

Import parker_spiral.
Import terminal.
Import main_py.
Import analyzers.
Import cdas.

Variable CdasWs : IO unit.
Variable get_data : pystr -> IO Response.
Variable upper : pystr -> pystr.
Variable str_exn : exn -> pystr.

(** X20. [fetch_mms_position] lets no [Exception] of the query or of the
    decoding escape: an exception that leaves it is not an [Exception], or
    it was raised by the constructor [CdasWs()], which is called ahead of
    the [try] statement. *)
Theorem fetch_mms_position_escapes (spacecraft_id : pystr) (c : Console) :
  match fst (fetch_mms_position CdasWs get_data upper str_exn
                                spacecraft_id c) with
  | inl e =>
      is_Exception e = false
      \/ fst (CdasWs
                (write (of_string
      "Requesting MMS data from 2024-02-01T00:00:00Z to 2024-02-01T01:00:00Z")
                   c)) = inl e
  | inr _ => True
  end.
Proof.
  unfold fetch_mms_position, io_bind at 1 2, print.
  destruct (CdasWs _) as [[e|[]] c1]; cbn [fst]; [now right|].
  unfold try_except_Exception.
  match goal with |- context [io_bind ?m ?k c1] =>
    destruct (io_bind m k c1) as [[e|a] c2] end; [|exact I].
  destruct (is_Exception e) eqn:E.
  - unfold io_bind, print, io_ret. exact I.
  - left. exact E.
Qed.

(** X21. Once the constructor has returned and the query has answered,
    [fetch_mms_position] returns normally: the three numbers of the first
    row when the answer holds the variable [mms1_mec_r_gse] with a first row
    of exactly three components, and [None] for every other answer: no
    answer, no data set, the variable missing, no row, an array of scalars,
    a row of another length. *)
Theorem fetch_mms_position_answer (spacecraft_id : pystr)
        (c c1 c2 : Console) (res : Response)
        (Hw : CdasWs
                (write (of_string
      "Requesting MMS data from 2024-02-01T00:00:00Z to 2024-02-01T01:00:00Z")
                   c) = (inr tt, c1))
        (Hq : get_data (upper spacecraft_id
                          ++ of_string "_MEC_SRVY_L2_EPHT89D") c1
              = (inr res, c2)) :
  fst (fetch_mms_position CdasWs get_data upper str_exn spacecraft_id c)
  = inr match res with
        | Some (Some data) =>
            match lookup mms1_mec_r_gse data with
            | Some (Arr2 ([x; y; z] :: _)) => Some (x, y, z)
            | _ => None
            end
        | _ => None
        end
  /\ stdin (snd (fetch_mms_position CdasWs get_data upper str_exn
                                    spacecraft_id c)) = stdin c2.
Proof.
  match goal with |- fst ?r = inr ?v /\ _ =>
    assert (H : exists c', r = (inr v, c') /\ stdin c' = stdin c2) end.
  { unfold fetch_mms_position, try_except_Exception, io_bind, print, lift,
      io_ret.
    rewrite Hw, Hq.
    destruct res as [[data|]|].
    - destruct (lookup mms1_mec_r_gse data) as [[items|rows]|].
      + destruct items; eexists; split; reflexivity.
      + destruct rows as [|[|x [|y [|z [|w row]]]] rows];
          eexists; split; reflexivity.
      + eexists; split; reflexivity.
    - eexists; split; reflexivity.
    - eexists; split; reflexivity. }
  destruct H as (c' & -> & Hs). split; [reflexivity|exact Hs].
Qed.

End CdasProps.

Section CdasExamples.

Import parker_spiral.
Import terminal.
Import main_py.
Import analyzers.
Import cdas.

Lemma fetch_mms_position_answer_witness :
  fst (fetch_mms_position (io_ret tt)
         (fun _ => io_ret (Some (Some [(mms1_mec_r_gse,
                                        Arr2 [[1; 2; 3]; [4; 5; 6]])])))
         (fun s => s) of_string (of_string "mms1")
         {| stdin := []; stdout := [] |})
  = inr (Some (1, 2, 3)).
Proof.
  apply (fetch_mms_position_answer (io_ret tt)
           (fun _ => io_ret (Some (Some [(mms1_mec_r_gse,
                                          Arr2 [[1; 2; 3]; [4; 5; 6]])])))
           (fun s => s) of_string (of_string "mms1")
           {| stdin := []; stdout := [] |} _ _
           (Some (Some [(mms1_mec_r_gse, Arr2 [[1; 2; 3]; [4; 5; 6]])]))
           eq_refl eq_refl).
Defined.

End CdasExamples.

(** ** [compute_parker_spiral_surface] on binary64 numbers *)

Section Binary64Signs.

Import Binary64.












Local Open Scope float_scope.



Lemma eqb_zero (x : float) : (x =? 0) = true -> x = 0 \/ x = (-0).
Proof.
  rewrite FloatAxioms.eqb_spec. change (Prim2SF 0) with (S754_zero false).
  intro H. destruct (Prim2SF x) as [s|s| |s m e] eqn:E; simpl in H;
    try discriminate.
  - destruct s; [right|left]; apply Prim2SF_inj; rewrite E; reflexivity.
  - unfold SFeqb in H. simpl in H. destruct s; discriminate.
  - unfold SFeqb in H. simpl in H. destruct s; discriminate.
Qed.

End Binary64Signs.

Section Binary64Arrays.

Import Binary64.

Lemma b64_gmap_outer (f : float -> float) (g : float -> float -> float)
      (ys xs : list float) :
  gmap f (outer g ys xs) = outer (fun y x => f (g y x)) ys xs.
Proof.
  unfold gmap, outer. rewrite map_map.
  apply map_ext; intro y. now rewrite map_map.
Qed.

Lemma b64_gmap2_outer (f g h : float -> float -> float)
      (ys xs : list float) :
  gmap2 f (outer g ys xs) (outer h ys xs)
  = outer (fun y x => f (g y x) (h y x)) ys xs.
Proof.
  unfold gmap2, outer. rewrite zipWith_map_same.
  apply map_ext; intro y. apply zipWith_map_same.
Qed.

Lemma b64_meshgrid_outer (xs ys : list float) :
  meshgrid xs ys
  = (outer (fun _ x => x) ys xs, outer (fun y _ => y) ys xs).
Proof.
  unfold meshgrid, outer. apply (f_equal2 pair); [|reflexivity].
  apply map_ext; intros _. symmetry; apply map_id.
Qed.

Lemma b64_cell_outer (f : float -> float -> float) (ys xs : list float)
      (i j : nat) (y x : float) :
  nth_error ys i = Some y -> nth_error xs j = Some x ->
  cell (outer f ys xs) i j = Some (f y x).
Proof.
  intros Hy Hx. unfold cell, outer.
  rewrite nth_error_map, Hy. simpl.
  now rewrite nth_error_map, Hx.
Qed.

Lemma b64_has_shape_outer (f : float -> float -> float)
      (ys xs : list float) :
  has_shape (outer f ys xs) (length ys) (length xs).
Proof.
  unfold has_shape, outer. split.
  - apply length_map.
  - apply Forall_forall. intros row Hrow.
    apply in_map_iff in Hrow. destruct Hrow as [y [<- _]].
    apply length_map.
Qed.


Lemma arange_length (n : nat) : length (arange n) = n.
Proof.
  induction n as [|n IH]; simpl; [reflexivity|].
  rewrite length_app, IH. simpl. lia.
Qed.

Lemma linspace_samples_length (start stop : float) (num : Z) :
  length (linspace_samples start stop num) = Z.to_nat num.
Proof.
  unfold linspace_samples.
  set (y := map _ _).
  assert (Hy : length y = Z.to_nat num).
  { unfold y. rewrite length_map.
    destruct (0 <? num - 1)%Z;
      [destruct (_ =? _)%float|]; rewrite length_map; apply arange_length. }
  destruct (1 <? num)%Z eqn:E; [|exact Hy].
  apply Z.ltb_lt in E.
  destruct y as [|v y'] eqn:Ey; [simpl in Hy; lia|].
  rewrite <- Hy, length_app.
  assert (Hne : v :: y' <> []) by discriminate.
  rewrite (app_removelast_last 0%float Hne) at 2.
  rewrite length_app. reflexivity.
Qed.

Lemma linspace_samples_last (start stop : float) (num : Z) :
  (2 <= num)%Z -> last (linspace_samples start stop num) 0%float = stop.
Proof.
  intro H. unfold linspace_samples.
  replace (1 <? num)%Z with true by (symmetry; apply Z.ltb_lt; lia).
  apply last_last.
Qed.

Lemma arange_nth (n j : nat) :
  (j < n)%nat ->
  nth_error (arange n) j = Some (of_uint63 (Uint63.of_Z (Z.of_nat j))).
Proof.
  induction n as [|n IH]; intro H; [lia|]. simpl.
  destruct (Nat.eq_dec j n) as [->|Hne].
  - rewrite nth_error_app2 by (rewrite arange_length; lia).
    rewrite arange_length, Nat.sub_diag. reflexivity.
  - rewrite nth_error_app1 by (rewrite arange_length; lia).
    apply IH. lia.
Qed.

(** Below the last one, the samples of a progression with a non-zero step
    are [k * step + start]. *)
Lemma linspace_samples_nth (start stop : float) (num : Z) (j : nat) :
  (2 <= num)%Z -> (j + 1 < Z.to_nat num)%nat ->
  let step := ((stop - start) / of_uint63 (Uint63.of_Z (num - 1)))%float in
  (step =? 0)%float = false ->
  nth_error (linspace_samples start stop num) j
  = Some (of_uint63 (Uint63.of_Z (Z.of_nat j)) * step + start)%float.
Proof.
  intros Hn Hj step Hstep. unfold linspace_samples.
  replace (0 <? num - 1)%Z with true by (symmetry; apply Z.ltb_lt; lia).
  replace (1 <? num)%Z with true by (symmetry; apply Z.ltb_lt; lia).
  fold step. rewrite Hstep. rewrite map_map.
  set (y := map _ (arange (Z.to_nat num))).
  assert (Hy : length y = Z.to_nat num)
    by (unfold y; rewrite length_map; apply arange_length).
  assert (Hne : y <> []) by (intro E; rewrite E in Hy; simpl in Hy; lia).
  assert (Hnth : nth_error y j
                 = Some (of_uint63 (Uint63.of_Z (Z.of_nat j)) * step
                         + start)%float).
  { unfold y. rewrite nth_error_map, arange_nth by lia. reflexivity. }
  rewrite (app_removelast_last 0%float Hne) in Hnth.
  assert (Hl : length (removelast y) = (Z.to_nat num - 1)%nat).
  { pose proof (f_equal (@length float)
                        (app_removelast_last 0%float Hne)) as E.
    rewrite length_app in E. simpl in E. lia. }
  rewrite nth_error_app1 in Hnth by lia.
  rewrite nth_error_app1 by lia. exact Hnth.
Qed.

End Binary64Arrays.

Section Binary64Surface.

Import Binary64.

Local Open Scope float_scope.

(** The call, line by line: the first line that raises decides. *)
Lemma b64_compute_cases (m : Libm) (a : SpiralArgs) :
  compute_parker_spiral_surface m a
  = if solar_rot_days a =? 0 then inl "ZeroDivisionError"%string
    else if v_sw_AU_day a =? 0 then inl "ZeroDivisionError"%string
    else if (n_r a <? 0)%Z then inl "ValueError"%string
    else if (n_phi a <? 0)%Z then inl "ValueError"%string
    else if is_finite (alpha a) && is_infinity (alpha a * alpha a)
         then inl "OverflowError"%string
    else inr (cell_grids m a).
Proof.
  unfold compute_parker_spiral_surface, pydiv, linspace.
  destruct (solar_rot_days a =? 0); [reflexivity|]. cbn [bind ret].
  destruct (v_sw_AU_day a =? 0); [reflexivity|]. cbn [bind ret].
  destruct (n_r a <? 0)%Z; [reflexivity|]. cbn [bind ret].
  destruct (n_phi a <? 0)%Z; [reflexivity|]. cbn [bind ret].
  rewrite b64_meshgrid_outer. cbv zeta.
  unfold pypow2. fold (omega a). fold (alpha a).
  destruct (is_finite (alpha a) && is_infinity (alpha a * alpha a));
    [reflexivity|]. cbn [bind ret].
  rewrite b64_gmap_outer. repeat rewrite b64_gmap2_outer. reflexivity.
Qed.

Lemma b64_returns (m : Libm) (a : SpiralArgs) :
  returns a = true ->
  compute_parker_spiral_surface m a = inr (cell_grids m a).
Proof.
  unfold returns. intro H.
  apply andb_prop in H. destruct H as [H H5].
  apply andb_prop in H. destruct H as [H H4].
  apply andb_prop in H. destruct H as [H H3].
  apply andb_prop in H. destruct H as [H1 H2].
  rewrite b64_compute_cases.
  apply negb_true_iff in H1, H2, H5. rewrite H1, H2, H5.
  replace (n_r a <? 0)%Z with false
    by (symmetry; apply Z.ltb_ge; now apply Z.leb_le).
  replace (n_phi a <? 0)%Z with false
    by (symmetry; apply Z.ltb_ge; now apply Z.leb_le).
  reflexivity.
Qed.

Lemma b64_raises (m : Libm) (a : SpiralArgs) :
  returns a = false ->
  exists e,
    compute_parker_spiral_surface m a = inl e
    /\ (e = "ZeroDivisionError" \/ e = "ValueError"
        \/ e = "OverflowError")%string.
Proof.
  unfold returns. rewrite b64_compute_cases. intro H.
  destruct (solar_rot_days a =? 0); [eexists; split; [reflexivity|tauto]|].
  destruct (v_sw_AU_day a =? 0); [eexists; split; [reflexivity|tauto]|].
  destruct (n_r a <? 0)%Z eqn:E1; [eexists; split; [reflexivity|tauto]|].
  destruct (n_phi a <? 0)%Z eqn:E2; [eexists; split; [reflexivity|tauto]|].
  destruct (is_finite (alpha a) && is_infinity (alpha a * alpha a));
    [eexists; split; [reflexivity|tauto]|].
  apply Z.ltb_ge in E1, E2. apply Z.leb_le in E1, E2.
  rewrite E1, E2 in H. discriminate.
Qed.

Lemma b64_surface_shape (m : Libm) (a : SpiralArgs) :
  let '(x, y, z, B) := cell_grids m a in
  has_shape x (Z.to_nat (n_phi a)) (Z.to_nat (n_r a))
  /\ has_shape y (Z.to_nat (n_phi a)) (Z.to_nat (n_r a))
  /\ has_shape z (Z.to_nat (n_phi a)) (Z.to_nat (n_r a))
  /\ has_shape B (Z.to_nat (n_phi a)) (Z.to_nat (n_r a)).
Proof.
  unfold cell_grids.
  rewrite <- (linspace_samples_length (r_min a) (r_max a) (n_r a)).
  rewrite <- (linspace_samples_length 0 (2 * pi) (n_phi a)).
  repeat split; apply b64_has_shape_outer.
Qed.

Ltac b64_settle :=
  cbn [negb andb] in *; repeat split; intros;
  repeat match goal with
         | H : _ /\ _ |- _ => destruct H
         | H : exists _, _ |- _ => destruct H
         | H : _ \/ _ |- _ => destruct H
         end;
  try discriminate; try lia; try reflexivity; try tauto.

(** C3, as the code has it.  The function checks nothing and never raises
    [InvalidParameterError].  Its exceptions are Python's own: a
    [ZeroDivisionError] exactly when the rotation period is zero or the wind
    speed in AU per day, [(v_sw_km_s * 86400) / 1.4959787e8], is rounded to
    zero, as it is for a wind speed of zero; else a [ValueError] of
    [np.linspace] exactly when a count is negative; else an [OverflowError]
    exactly when the finite winding rate has a square that overflows.  For
    all other arguments, whatever the order or the sign of the radii, of the
    rotation period and of the wind speed, four arrays of shape
    [(n_phi, n_r)] are returned.  No exception leaves a partial surface. *)
Theorem C3_exceptions_raised (m : Libm) (a : SpiralArgs) :
  compute_parker_spiral_surface m a <> inl "InvalidParameterError"%string
  /\ (compute_parker_spiral_surface m a = inl "ZeroDivisionError"%string
      <-> (solar_rot_days a =? 0) = true \/ (v_sw_AU_day a =? 0) = true)
  /\ ((v_sw_km_s a =? 0) = true ->
      compute_parker_spiral_surface m a = inl "ZeroDivisionError"%string)
  /\ (compute_parker_spiral_surface m a = inl "ValueError"%string
      <-> (solar_rot_days a =? 0) = false /\ (v_sw_AU_day a =? 0) = false
          /\ (n_r a < 0 \/ n_phi a < 0)%Z)
  /\ (compute_parker_spiral_surface m a = inl "OverflowError"%string
      <-> (solar_rot_days a =? 0) = false /\ (v_sw_AU_day a =? 0) = false
          /\ (0 <= n_r a)%Z /\ (0 <= n_phi a)%Z
          /\ is_finite (alpha a) = true
          /\ is_infinity (alpha a * alpha a) = true)
  /\ ((exists x y z B,
          compute_parker_spiral_surface m a = inr (x, y, z, B)
          /\ has_shape x (Z.to_nat (n_phi a)) (Z.to_nat (n_r a))
          /\ has_shape y (Z.to_nat (n_phi a)) (Z.to_nat (n_r a))
          /\ has_shape z (Z.to_nat (n_phi a)) (Z.to_nat (n_r a))
          /\ has_shape B (Z.to_nat (n_phi a)) (Z.to_nat (n_r a)))
      <-> returns a = true).
Proof.
  assert (Hzero : (v_sw_km_s a =? 0) = true -> (v_sw_AU_day a =? 0) = true).
  { intro H. unfold v_sw_AU_day.
    destruct (eqb_zero _ H) as [-> | ->]; reflexivity. }
  pose proof (b64_surface_shape m a) as Hshape.
  pose proof (b64_compute_cases m a) as E.
  unfold returns.
  destruct (solar_rot_days a =? 0) eqn:E1;
    [rewrite E; clear Hshape; b64_settle|].
  destruct (v_sw_AU_day a =? 0) eqn:E2;
    [rewrite E; clear Hshape; b64_settle|].
  assert (Hv : (v_sw_km_s a =? 0) = false).
  { destruct (v_sw_km_s a =? 0); [|reflexivity].
    symmetry. now apply Hzero. }
  rewrite Hv. clear Hzero.
  destruct (n_r a <? 0)%Z eqn:E3.
  { rewrite E. apply Z.ltb_lt in E3.
    replace (0 <=? n_r a)%Z with false by (symmetry; apply Z.leb_gt; lia).
    clear Hshape. b64_settle. }
  apply Z.ltb_ge in E3.
  replace (0 <=? n_r a)%Z with true by (symmetry; apply Z.leb_le; lia).
  destruct (n_phi a <? 0)%Z eqn:E4.
  { rewrite E. apply Z.ltb_lt in E4.
    replace (0 <=? n_phi a)%Z with false by (symmetry; apply Z.leb_gt; lia).
    clear Hshape. b64_settle. }
  apply Z.ltb_ge in E4.
  replace (0 <=? n_phi a)%Z with true by (symmetry; apply Z.leb_le; lia).
  destruct (is_finite (alpha a)) eqn:E5;
    [destruct (is_infinity (alpha a * alpha a)) eqn:E6|];
    rewrite E; cbn [andb negb]; [clear Hshape; b64_settle| |];
    destruct (cell_grids m a) as [[[x y] z] B];
    ((split; [|split; [|split; [|split; [|split]]]]);
     [clear Hshape; b64_settle ..
     |split; [intros _; reflexivity|]; intros _;
      exists x, y, z, B; (split; [reflexivity|exact Hshape])]).
Qed.

(** The claim fails at a wind speed of zero, which raises a
    [ZeroDivisionError] and not an [InvalidParameterError], and at radii in
    decreasing order, which are not rejected. *)
Lemma C3_not_rejected :
  (forall m,
      compute_parker_spiral_surface m zero_wind
      = inl "ZeroDivisionError"%string)
  /\ (r_max swapped_radii <? r_min swapped_radii) = true
  /\ (forall m, exists x y z B,
         compute_parker_spiral_surface m swapped_radii = inr (x, y, z, B)).
Proof.
  split; [|split].
  - intro m. rewrite b64_compute_cases. reflexivity.
  - reflexivity.
  - intro m. rewrite (b64_returns m swapped_radii) by reflexivity.
    destruct (cell_grids m swapped_radii) as [[[x y] z] B].
    now exists x, y, z, B.
Qed.

(** C7, as the code has it.  Whenever no line raises, the four arrays
    returned have shape [(n_phi, n_r)]; cell [(i, j)] of each of them is
    computed from the [i]-th azimuth sample and the [j]-th radius sample,
    the field from the very samples that give the point; the samples are
    those of [np.linspace] over [[r_min, r_max]] and [[0, 2 pi]], as many as
    asked for: from two samples on the last one is the end point itself
    and, for a step that is not zero, the ones before it are
    [k * step + start]. *)
Theorem C7_shape_when_returned (m : Libm) (a : SpiralArgs)
        (Hret : returns a = true) :
  exists x y z B,
    compute_parker_spiral_surface m a = inr (x, y, z, B)
    /\ (has_shape x (Z.to_nat (n_phi a)) (Z.to_nat (n_r a))
        /\ has_shape y (Z.to_nat (n_phi a)) (Z.to_nat (n_r a))
        /\ has_shape z (Z.to_nat (n_phi a)) (Z.to_nat (n_r a))
        /\ has_shape B (Z.to_nat (n_phi a)) (Z.to_nat (n_r a)))
    /\ (linspace (r_min a) (r_max a) (n_r a) = inr (r_vals a)
        /\ linspace 0 (2 * pi) (n_phi a) = inr (phi_vals a))
    /\ (length (r_vals a) = Z.to_nat (n_r a)
        /\ length (phi_vals a) = Z.to_nat (n_phi a))
    /\ ((2 <= n_r a)%Z -> last (r_vals a) 0 = r_max a)
    /\ ((2 <= n_phi a)%Z -> last (phi_vals a) 0 = 2 * pi)
    /\ (forall j, (2 <= n_r a)%Z -> (j + 1 < Z.to_nat (n_r a))%nat ->
           let step :=
             (r_max a - r_min a) / of_uint63 (Uint63.of_Z (n_r a - 1)) in
           (step =? 0) = false ->
           nth_error (r_vals a) j
           = Some (of_uint63 (Uint63.of_Z (Z.of_nat j)) * step + r_min a))
    /\ (forall i, (2 <= n_phi a)%Z -> (i + 1 < Z.to_nat (n_phi a))%nat ->
           let step :=
             (2 * pi - 0) / of_uint63 (Uint63.of_Z (n_phi a - 1)) in
           (step =? 0) = false ->
           nth_error (phi_vals a) i
           = Some (of_uint63 (Uint63.of_Z (Z.of_nat i)) * step + 0))
    /\ (forall i j phi r,
           nth_error (phi_vals a) i = Some phi ->
           nth_error (r_vals a) j = Some r ->
           cell x i j = Some (point_x m a phi r)
           /\ cell y i j = Some (point_y m a phi r)
           /\ cell z i j = Some (point_z m a phi r)
           /\ cell B i j = Some (field m a phi r))
    /\ (forall i j, (i < Z.to_nat (n_phi a))%nat ->
                    (j < Z.to_nat (n_r a))%nat ->
           exists phi r,
             nth_error (phi_vals a) i = Some phi
             /\ nth_error (r_vals a) j = Some r).
Proof.
  pose proof (b64_surface_shape m a) as Hshape.
  pose proof (b64_returns m a Hret) as E. unfold cell_grids in *.
  do 4 eexists. split; [exact E|]. split; [exact Hshape|].
  assert (Hn : (0 <= n_r a)%Z /\ (0 <= n_phi a)%Z).
  { unfold returns in Hret.
    apply andb_prop in Hret. destruct Hret as [Hret _].
    apply andb_prop in Hret. destruct Hret as [Hret H4].
    apply andb_prop in Hret. destruct Hret as [_ H3].
    split; now apply Z.leb_le. }
  destruct Hn as [Hnr Hnphi].
  split; [|split; [|split; [|split; [|split; [|split; [|split]]]]]].
  - unfold linspace.
    replace (n_r a <? 0)%Z with false by (symmetry; apply Z.ltb_ge; lia).
    replace (n_phi a <? 0)%Z with false by (symmetry; apply Z.ltb_ge; lia).
    split; reflexivity.
  - split; apply linspace_samples_length.
  - apply linspace_samples_last.
  - apply linspace_samples_last.
  - intros j H2 Hj. now apply linspace_samples_nth.
  - intros i H2 Hi. now apply linspace_samples_nth.
  - intros i j phi r Hphi Hr.
    repeat split; apply b64_cell_outer; assumption.
  - intros i j Hi Hj.
    rewrite <- (linspace_samples_length 0 (2 * pi) (n_phi a)) in Hi.
    rewrite <- (linspace_samples_length (r_min a) (r_max a) (n_r a)) in Hj.
    apply nth_error_Some in Hi, Hj. fold (phi_vals a) in Hi.
    fold (r_vals a) in Hj.
    destruct (nth_error (phi_vals a) i) as [phi|]; [|contradiction].
    destruct (nth_error (r_vals a) j) as [r|]; [|contradiction].
    now exists phi, r.
Qed.

Lemma C7_shape_when_returned_witness :
  exists x y z B,
    compute_parker_spiral_surface small_angle defaults = inr (x, y, z, B)
    /\ has_shape x 100 100 /\ has_shape B 100 100
    /\ last (r_vals defaults) 0 = 1.5.
Proof.
  destruct (C7_shape_when_returned small_angle defaults eq_refl)
    as (x & y & z & B & E & (Hx & _ & _ & HB) & _ & _ & Hl & _).
  exists x, y, z, B. split; [exact E|]. split; [exact Hx|].
  split; [exact HB|]. apply Hl. simpl. lia.
Defined.

(** The claim fails at parameters the specification calls valid: with a
    rotation period of [1e-160] days the square of the winding rate
    overflows and the call raises [OverflowError]; with a wind speed of
    [1e-323] km/s the speed in AU per day is rounded to zero and the call
    raises [ZeroDivisionError].  Neither returns a grid. *)
Lemma C7_valid_but_raises :
  valid period_1e_160 = true
  /\ (forall m,
         compute_parker_spiral_surface m period_1e_160
         = inl "OverflowError"%string)
  /\ valid wind_1e_323 = true
  /\ (forall m,
         compute_parker_spiral_surface m wind_1e_323
         = inl "ZeroDivisionError"%string).
Proof.
  split; [reflexivity|]. split.
  - intro m. rewrite b64_compute_cases. reflexivity.
  - split; [reflexivity|].
    intro m. rewrite b64_compute_cases. reflexivity.
Qed.







End Binary64Surface.
